(** * achgateway: inbound (RDFI) file processing

    A shallow embedding of the inbound pipeline of achgateway:
    the correction and credit-reconciliation processors
    ([internal/incoming/rdfi]), the periodic scheduler ([scheduler.go])
    and the file submission endpoint ([internal/incoming/web/api_files.go]).

    Go values are modelled as follows.
    - [string] is a Go string (a sequence of bytes).
    - A pointer that may be nil is an [option]; dereferencing [None] is a
      run-time panic, kept explicit in the processor monad [M].
    - [error] values are strings; a nil error is [None].
    - Calls to collaborators outside the repository (lock backend,
      transport agent, codec, publisher, alerters) are oracles: fields of
      the record that stands for the Go struct holding them; what the
      code does with their answers is recorded in a trace.
    - Logger calls change neither control flow nor any observable state of
      the processors, and are left out of the processor traces.
    - A counter call validates its label values and panics on one that is
      not valid UTF-8; the panic is part of the processor model. *)

From Stdlib Require Import ZArith Ascii String List Bool Lia.
From stdpp Require Import gmap strings list.

Local Open Scope Z_scope.

Definition error := string.

(** ** Go's [strings] and [path/filepath] functions used by the code *)

Module GoStr.

Definition isUpper (c : ascii) : bool :=
  let n := N_of_ascii c in ((65 <=? n) && (n <=? 90))%N.

(** One byte of [strings.ToLower]: 'A'..'Z' is moved to 'a'..'z'. *)
Definition lowerByte (c : ascii) : ascii :=
  if isUpper c then ascii_of_N (N_of_ascii c + 32) else c.

(** [strings.ToLower] on its ASCII fast path: upper-case ASCII letters
    are mapped bytewise.  This is what the function does on a string of
    ASCII bytes ([isASCII], below).  On other strings it maps every rune
    through the Unicode tables; that is not modelled, and this model
    leaves bytes above 0x7f as they are. *)
Fixpoint ToLower (s : string) : string :=
  match s with
  | EmptyString => EmptyString
  | String c s' => String (lowerByte c) (ToLower s')
  end.

(** [strings.HasPrefix s prefix]. *)
Fixpoint HasPrefix (s prefix : string) {struct prefix} : bool :=
  match prefix, s with
  | EmptyString, _ => true
  | String _ _, EmptyString => false
  | String a p, String b s' => if Ascii.eqb a b then HasPrefix s' p else false
  end.

(** [strings.Index s substr]: the index of the first occurrence of
    [substr] in [s], or -1. *)
Fixpoint Index (s substr : string) : Z :=
  if HasPrefix s substr then 0
  else match s with
       | EmptyString => -1
       | String _ s' =>
           let i := Index s' substr in
           if i <? 0 then -1 else i + 1
       end.

(** [strings.Contains s substr] is [Index(s, substr) >= 0]. *)
Definition Contains (s substr : string) : bool := Index s substr >=? 0.

Definition isPathSeparator (c : ascii) : bool := Ascii.eqb c "/".

Fixpoint dropWhile {A} (p : A -> bool) (l : list A) : list A :=
  match l with
  | [] => []
  | x :: l' => if p x then dropWhile p l' else l
  end.

Fixpoint takeWhile {A} (p : A -> bool) (l : list A) : list A :=
  match l with
  | [] => []
  | x :: l' => if p x then x :: takeWhile p l' else []
  end.

(** [filepath.Base] on a system whose separator is '/': trailing
    separators are stripped, the last element is returned; the empty
    path gives "." and a path of separators only gives "/". *)
Definition Base (path : string) : string :=
  if String.eqb path "" then "."
  else
    let r := dropWhile isPathSeparator (rev (list_ascii_of_string path)) in
    let last := takeWhile (fun c => negb (isPathSeparator c)) r in
    match last with
    | [] => "/"
    | _ => string_of_list_ascii (rev last)
    end.

(** [s] holds ASCII bytes only: every byte is below [utf8.RuneSelf].
    On such a string [strings.ToLower] takes its bytewise fast path. *)
Definition isASCII (s : string) : bool :=
  forallb (fun c => (N_of_ascii c <? 128)%N) (list_ascii_of_string s).

Definition inRange (lo hi : N) (c : ascii) : bool :=
  ((lo <=? N_of_ascii c) && (N_of_ascii c <=? hi))%N.

(** A continuation byte, 0x80..0xBF. *)
Definition isCont (c : ascii) : bool := inRange 128 191 c.

(** [utf8.ValidString]: the string is a sequence of well-formed UTF-8
    encodings (no overlong form, no surrogate, nothing above U+10FFFF). *)
Fixpoint ValidString (s : string) : bool :=
  match s with
  | EmptyString => true
  | String c0 s1 =>
      if (N_of_ascii c0 <? 128)%N then ValidString s1
      else if inRange 194 223 c0 then
        match s1 with
        | String c1 s2 => isCont c1 && ValidString s2
        | _ => false
        end
      else if inRange 224 239 c0 then
        match s1 with
        | String c1 (String c2 s3) =>
            (if (N_of_ascii c0 =? 224)%N then inRange 160 191 c1
             else if (N_of_ascii c0 =? 237)%N then inRange 128 159 c1
             else isCont c1)
            && isCont c2 && ValidString s3
        | _ => false
        end
      else if inRange 240 244 c0 then
        match s1 with
        | String c1 (String c2 (String c3 s4)) =>
            (if (N_of_ascii c0 =? 240)%N then inRange 144 191 c1
             else if (N_of_ascii c0 =? 244)%N then inRange 128 143 c1
             else isCont c1)
            && isCont c2 && isCont c3 && ValidString s4
        | _ => false
        end
      else false
  end.

(** Specification-level notions used to state the properties. *)

(** [substr] occurs in [s]. *)
Definition occurs (substr s : string) : Prop :=
  exists pre post, s = pre +:+ substr +:+ post.

(** Equality of two strings up to the case of ASCII letters. *)
Definition equalFold (a b : string) : Prop := ToLower a = ToLower b.

(** [substr] occurs in [s] when compared case-insensitively: some
    substring of [s] equals [substr] up to case. *)
Definition occursFold (substr s : string) : Prop :=
  exists pre mid post, s = pre +:+ mid +:+ post /\ equalFold mid substr.

End GoStr.

(** ** The parsed ACH document ([github.com/moov-io/ach])

  The codec is an external library; only the fields and methods the
  processors read are kept. *)

Module ach.

Record FileHeader := {
  ImmediateOrigin : string;
  ImmediateDestination : string
}.

Record ChangeCode := { Code : string }.

(** [ChangeCodeField] is the result of the method of that name: a
    pointer to the change-code table entry. *)
Record Addenda98 := {
  ChangeCodeText : string;
  ChangeCodeField : option ChangeCode
}.

Record EntryDetail := {
  TraceNumber : string;
  Addenda98_ : option Addenda98
}.

Record BatchHeader := { BatchNumber : Z; CompanyName : string }.

(** A [Batcher] through its two accessors. *)
Record Batcher := {
  GetHeader : BatchHeader;
  GetEntries : list EntryDetail
}.

Record File := {
  Header : FileHeader;
  Batches : list Batcher;
  NotificationOfChange : list Batcher
}.

End ach.

(** ** Emitted events ([pkg/models]) *)

Module models.

Record Batch := {
  Header : ach.BatchHeader;
  Entries : list ach.EntryDetail
}.

Record CorrectionFile := {
  cf_Filename : string;
  cf_File : ach.File;
  Corrections : list Batch
}.

Record ReconciliationFile := {
  rf_Filename : string;
  rf_File : ach.File;
  Reconciliations : list Batch
}.

(** [models.Event{Event: ...}] with the payloads these processors send. *)
Inductive Event :=
| EvCorrection (c : CorrectionFile)
| EvReconciliation (r : ReconciliationFile).

End models.

(** ** Configuration ([internal/service]) *)

Module service.

Record ODFICorrections := {
  oc_Enabled : bool;
  oc_PathMatcher : string
}.

Record ODFIReconciliation := {
  or_Enabled : bool;
  or_PathMatcher : string
}.

(** [ODFIStorage]: the cleanup policy flags. *)
Record ODFIStorage := {
  KeepRemoteFiles : bool;
  RemoveZeroByteFiles : bool;
  CleanupLocalDirectory : bool
}.

Record Shard := {
  Name : string;
  UploadAgent : string
}.

End service.

(** ** Processors ([internal/incoming/rdfi]) *)

Module rdfi.

(** [File]: the unit of processing.  [ACHFile] is a [*ach.File]. *)
Record File := {
  Filepath : string;
  ACHFile : option ach.File
}.

(** What a processor does to the outside world, in program order. *)
Inductive Effect :=
| CounterAdd (name : string) (labels : list (string * string))
    (** [counter.With(labels...).Add(1)] added one *)
| Emit (ev : models.Event)
    (** the processor's [sendEvent] is called with [ev] *)
| SvcSend (ev : models.Event)
    (** [pc.svc.Send(models.Event{Event: ev})] is called *).

(** The result of running Go code: a value, or a run-time panic. *)
Inductive Res (A : Type) :=
| Val (a : A)
| Panicked (msg : string).
Arguments Val {A} a.
Arguments Panicked {A} msg.

(** Effects so far, and the result. *)
Definition M (A : Type) : Type := list Effect * Res A.

Definition ret {A} (a : A) : M A := ([], Val a).

Definition bind {A B} (m : M A) (k : A -> M B) : M B :=
  match m with
  | (t, Val a) => let '(t', r) := k a in (t ++ t', r)
  | (t, Panicked msg) => (t, Panicked msg)
  end.

Definition tell (e : Effect) : M unit := ([e], Val tt).

Definition nilDeref : string :=
  "runtime error: invalid memory address or nil pointer dereference".

(** The label values a counter accepts: each is valid UTF-8. *)
Definition labelsValid (labels : list (string * string)) : bool :=
  forallb (fun kv => GoStr.ValidString (snd kv)) labels.

(** What the metrics client panics with for a label value that is not
    valid UTF-8 (the text of its error also quotes label and value). *)
Definition invalidLabelValue : string := "label value is not valid UTF-8".

(** [counter.With(labelValues...).Add(1)]: the Prometheus client
    validates the label values and panics when one is not valid UTF-8,
    before anything is added. *)
Definition counterAdd (name : string) (labels : list (string * string)) : M unit :=
  if labelsValid labels then tell (CounterAdd name labels)
  else ([], Panicked invalidLabelValue).

(** Reading a field through a pointer. *)
Definition deref {A} (p : option A) : M A :=
  match p with
  | Some a => ret a
  | None => ([], Panicked nilDeref)
  end.

Declare Scope go_scope.
Delimit Scope go_scope with go.
Notation "x <- m ;; k" := (bind m (fun x => k))
  (at level 100, m at next level, right associativity) : go_scope.
Notation "m ;;; k" := (bind m (fun _ => k))
  (at level 100, right associativity) : go_scope.
Local Open Scope go_scope.

Fixpoint forEach {A} (l : list A) (body : A -> M unit) : M unit :=
  match l with
  | [] => ret tt
  | x :: l' => body x ;;; forEach l' body
  end.

Definition trace {A} (m : M A) : list Effect := fst m.
Definition result {A} (m : M A) : Res A := snd m.

(** Events handed to [sendEvent], and counter increments, of a trace. *)
Definition emitted (t : list Effect) : list models.Event :=
  omap (fun e => match e with Emit ev => Some ev | _ => None end) t.
Definition sent (t : list Effect) : list models.Event :=
  omap (fun e => match e with SvcSend ev => Some ev | _ => None end) t.
Definition increments (t : list Effect) : list (string * list (string * string)) :=
  omap (fun e => match e with CounterAdd n l => Some (n, l) | _ => None end) t.

(** [events.Emitter]: [Send] answers with an error or nil. *)
Definition Emitter := models.Event -> option error.

(** [sendEvent], the same in both processors: the event goes to the
    emitter when one is configured; a failure of [Send] is only logged. *)
Definition sendEvent (svc : option Emitter) (ev : models.Event) : M unit :=
  tell (Emit ev) ;;;
  match svc with
  | Some _ => tell (SvcSend ev)
  | None => ret tt
  end.

(** *** corrections.go *)

Record correctionProcessor := {
  cp_svc : option Emitter;
  cp_cfg : service.ODFICorrections
}.

Definition CorrectionEmitter (cfg : service.ODFICorrections) (svc : option Emitter)
  : option correctionProcessor :=
  if negb (service.oc_Enabled cfg) then None
  else Some {| cp_svc := svc; cp_cfg := cfg |}.

Definition isCorrectionFile (file : File) : M bool :=
  f <- deref (ACHFile file) ;;
  ret (Z.of_nat (length (ach.NotificationOfChange f)) >=? 0).

(** The skip condition of [correctionProcessor.Handle]:
    [pc.cfg.PathMatcher != "" && !strings.Contains(strings.ToLower(file.Filepath), pc.cfg.PathMatcher)]. *)
Definition correctionPathSkips (cfg : service.ODFICorrections) (file : File) : bool :=
  negb (String.eqb (service.oc_PathMatcher cfg) "")
  && negb (GoStr.Contains (GoStr.ToLower (Filepath file)) (service.oc_PathMatcher cfg)).

(** The verdict of the path filter: the file is kept. *)
Definition correctionPathPasses (cfg : service.ODFICorrections) (file : File) : bool :=
  negb (correctionPathSkips cfg file).

Definition correctionLabels (f : ach.File) (code : string) : list (string * string) :=
  [("origin", ach.ImmediateOrigin (ach.Header f));
   ("destination", ach.ImmediateDestination (ach.Header f));
   ("code", code)].

(** The inner loop, over the entries of one batch. *)
Definition countChangeCodes (f : ach.File) (entries : list ach.EntryDetail) : M unit :=
  forEach entries (fun e =>
    match ach.Addenda98_ e with
    | None => ret tt
    | Some a98 =>
        changeCode <- deref (ach.ChangeCodeField a98) ;;
        counterAdd "correction_codes_processed"
          (correctionLabels f (ach.Code changeCode))
    end).

(** The outer loop, over [file.ACHFile.NotificationOfChange];
    [acc] is [msg.Corrections] so far. *)
Fixpoint correctionLoop (f : ach.File) (batches : list ach.Batcher)
    (acc : list models.Batch) : M (list models.Batch) :=
  match batches with
  | [] => ret acc
  | b :: bs =>
      let entries := ach.GetEntries b in
      let acc' := acc ++ [ {| models.Header := ach.GetHeader b;
                              models.Entries := entries |} ] in
      countChangeCodes f entries ;;;
      correctionLoop f bs acc'
  end.

Definition correctionHandle (pc : correctionProcessor) (file : File) : M (option error) :=
  ok <- isCorrectionFile file ;;
  if negb ok then ret None
  else if correctionPathSkips (cp_cfg pc) file then ret None
  else
    f <- deref (ACHFile file) ;;
    corrections <- correctionLoop f (ach.NotificationOfChange f) [] ;;
    sendEvent (cp_svc pc)
      (models.EvCorrection
         {| models.cf_Filename := GoStr.Base (Filepath file);
            models.cf_File := f;
            models.Corrections := corrections |}) ;;;
    ret None.

(** *** reconciliation processor *)

Record creditReconciliation := {
  cr_svc : option Emitter;
  cr_cfg : service.ODFIReconciliation
}.

Definition CreditReconciliationEmitter (cfg : service.ODFIReconciliation)
    (svc : option Emitter) : option creditReconciliation :=
  if negb (service.or_Enabled cfg) then None
  else Some {| cr_svc := svc; cr_cfg := cfg |}.

Definition isReconciliationFile (cfg : service.ODFIReconciliation) (file : File) : bool :=
  if negb (service.or_Enabled cfg) then false
  else negb (String.eqb (service.or_PathMatcher cfg) "")
       && GoStr.Contains (GoStr.ToLower (Filepath file)) (service.or_PathMatcher cfg).

Definition reconciliationLabels (f : ach.File) : list (string * string) :=
  [("origin", ach.ImmediateOrigin (ach.Header f));
   ("destination", ach.ImmediateDestination (ach.Header f))].

(** The inner loop: every entry is appended to [batch.Entries]. *)
Fixpoint appendEntries (entries acc : list ach.EntryDetail) : list ach.EntryDetail :=
  match entries with
  | [] => acc
  | e :: es => appendEntries es (acc ++ [e])
  end.

(** The outer loop over [file.ACHFile.Batches]; [recons] so far. *)
Fixpoint reconciliationLoop (batches : list ach.Batcher) (recons : list models.Batch)
    : list models.Batch :=
  match batches with
  | [] => recons
  | b :: bs =>
      let batch := {| models.Header := ach.GetHeader b;
                      models.Entries := appendEntries (ach.GetEntries b) [] |} in
      reconciliationLoop bs
        (if Z.of_nat (length (models.Entries batch)) >? 0
         then recons ++ [batch] else recons)
  end.

Definition reconciliationHandle (pc : creditReconciliation) (file : File)
    : M (option error) :=
  match ACHFile file with
  | None => ret (Some "nil ach.File")
  | Some f =>
      if negb (isReconciliationFile (cr_cfg pc) file) then ret None
      else
        counterAdd "credit_reconciliation_files_processed"
          (reconciliationLabels f) ;;;
        let recons := reconciliationLoop (ach.Batches f) [] in
        (if Z.of_nat (length recons) >? 0
         then sendEvent (cr_svc pc)
                (models.EvReconciliation
                   {| models.rf_Filename := GoStr.Base (Filepath file);
                      models.rf_File := f;
                      models.Reconciliations := recons |})
         else ret tt) ;;;
        ret None
  end.

(** A registered processor: the [Processor] interface's [Handle]. *)
Inductive Processor :=
| ProcCorrection (pc : correctionProcessor)
| ProcReconciliation (pc : creditReconciliation).

Definition Handle (p : Processor) (file : File) : M (option error) :=
  match p with
  | ProcCorrection pc => correctionHandle pc file
  | ProcReconciliation pc => reconciliationHandle pc file
  end.

Definition Type_ (p : Processor) : string :=
  match p with
  | ProcCorrection _ => "correction"
  | ProcReconciliation _ => "CreditReconciliation"
  end.

End rdfi.

(** ** The periodic scheduler ([internal/incoming/rdfi/scheduler.go]) *)

Module scheduler.

(** What one [tick] does to the remote agent and to the staging
    directory, in program order. *)
Inductive TickEffect :=
| RemoteDelete (path : string) (res : option error)
    (** [agent.Delete(path)] was called and answered [res] *)
| ProcessedFiles
    (** [ProcessFiles] ran over the download *)
| LocalDeleteFiles
    (** [dl.deleteFiles()]: the staging directory is removed *)
| LocalDeleteEmptyDirs
    (** [dl.deleteEmptyDirs(agent)]: empty staging subdirectories are removed *).

(** [upload.Agent], as far as [tick] and the cleanup use it: [Delete]
    answers for a remote path, given what was done before in the tick. *)
Record Agent := {
  Hostname : string;
  Delete : list TickEffect -> string -> option error
}.

(** [downloadedFiles]: the staging directory and, for every file retrieved,
    its remote path and the size of the local copy. *)
Record downloadedFiles := {
  dir : string;
  files : list (string * Z)
}.

(** The collaborators of one [tick], outside the sources at hand. *)
Record TickWorld := {
  upload_New : string -> Agent + error;
  CopyFilesFromRemote : Agent -> downloadedFiles + error;
  newAuditSaver : string -> option error;
  ProcessFiles : downloadedFiles -> option error;
  deleteFiles : downloadedFiles -> option error;
  deleteEmptyDirs : downloadedFiles -> Agent -> option error
}.

(** One call of [agent.Delete] for every path, in order; the first error
    is what the step returns. *)
Fixpoint deleteOnRemote (agent : Agent) (paths : list string)
    (t : list TickEffect) (failed : option error) : list TickEffect * option error :=
  match paths with
  | [] => (t, failed)
  | p :: ps =>
      let res := Delete agent t p in
      deleteOnRemote agent ps (t ++ [RemoteDelete p res])
        (match failed with Some e => Some e | None => res end)
  end.

(** Modelled from the spec: [Cleanup] is not among the sources.  Cleanup
    step 1: delete every remote file that was downloaded this tick, by
    the remote path recorded in the bundle; a failing step returns an
    error. *)
Definition Cleanup (agent : Agent) (dl : downloadedFiles) (t : list TickEffect)
    : list TickEffect * option error :=
  deleteOnRemote agent (map fst (files dl)) t None.

(** Modelled from the spec: [CleanupEmptyFiles] is not among the sources.
    Cleanup step 2: delete the remote files whose downloaded local size
    is zero; a failing step returns an error. *)
Definition CleanupEmptyFiles (agent : Agent) (dl : downloadedFiles) (t : list TickEffect)
    : list TickEffect * option error :=
  deleteOnRemote agent
    (map fst (List.filter (fun f => snd f =? 0) (files dl))) t None.

Inductive Event :=
| LogMissingShard (shardName : string)
    (** "unable to find shard=..." *)
| AcquireLock (leaderKey : string) (res : option error)
    (** [consul.AcquireLock(logger, s.consul, leaderKey)] answered [res] *)
| Tick (shard : service.Shard) (effects : list TickEffect) (res : option error)
    (** [s.tick(shard)] ran, did [effects] and returned [res] *)
| AlertError (err : error) (res : option error)
    (** [s.alerters.AlertError(err)] answered [res] *).

Record ODFIFiles := {
  ShardNames : list string;
  Storage : service.ODFIStorage
}.

(** [PeriodicScheduler].  [sharding] is [s.sharding.Find]; [consul] and
    [alerters] answer given the history of the run so far; [world] is
    what the collaborators of [tick] do after that history. *)
Record PeriodicScheduler := {
  odfi : ODFIFiles;
  sharding : string -> option service.Shard;
  consul : list Event -> string -> option error;
  alerters : list Event -> error -> option error;
  world : list Event -> TickWorld
}.

Definition tick (s : PeriodicScheduler) (w : TickWorld) (shard : service.Shard)
    : list TickEffect * option error :=
  match upload_New w (service.UploadAgent shard) with
  | inr err => ([], Some ("agent: " +:+ err))
  | inl agent =>
  match CopyFilesFromRemote w agent with
  | inr err => ([], Some ("ERROR: problem copying files: " +:+ err))
  | inl dl =>
  match newAuditSaver w (Hostname agent) with
  | Some err => ([], Some ("ERROR: " +:+ err))
  | None =>
  match ProcessFiles w dl with
  | Some err => ([ProcessedFiles], Some ("ERROR: processing files: " +:+ err))
  | None =>
      let storage := Storage (odfi s) in
      let '(t1, e1) :=
        if negb (service.KeepRemoteFiles storage)
        then Cleanup agent dl [ProcessedFiles]
        else ([ProcessedFiles], None) in
      match e1 with
      | Some err => (t1, Some ("ERROR: deleting remote files: " +:+ err))
      | None =>
      let '(t2, e2) :=
        if service.RemoveZeroByteFiles storage
        then CleanupEmptyFiles agent dl t1
        else (t1, None) in
      match e2 with
      | Some err => (t2, Some ("ERROR: deleting zero byte files: " +:+ err))
      | None =>
          if service.CleanupLocalDirectory storage
          then (t2 ++ [LocalDeleteFiles], deleteFiles w dl)
          else (t2 ++ [LocalDeleteEmptyDirs], deleteEmptyDirs w dl agent)
      end
      end
  end end end end.

Definition alertOnError (s : PeriodicScheduler) (h : list Event) (err : option error)
    : list Event :=
  match err with
  | None => h
  | Some e => h ++ [AlertError e (alerters s h e)]
  end.

(** One iteration of the loop of [tickAll]; [h] is the history so far. *)
Definition tickShard (s : PeriodicScheduler) (h : list Event) (shardName : string)
    : list Event :=
  match sharding s shardName with
  | None => h ++ [LogMissingShard shardName]
  | Some shard =>
      let leaderKey := "achgateway/rdfi/" +:+ shardName in
      match consul s h leaderKey with
      | Some err => h ++ [AcquireLock leaderKey (Some err)]
      | None =>
          let h1 := h ++ [AcquireLock leaderKey None] in
          let '(effects, err) := tick s (world s h1) shard in
          alertOnError s (h1 ++ [Tick shard effects err]) err
      end
  end.

Definition tickAll (s : PeriodicScheduler) : list Event * option error :=
  (fold_left (tickShard s) (ShardNames (odfi s)) [], None).

(** Projections of a history. *)
Definition lockKeys (h : list Event) : list string :=
  omap (fun e => match e with AcquireLock k _ => Some k | _ => None end) h.
Definition remoteDeletes (t : list TickEffect) : list string :=
  omap (fun e => match e with RemoteDelete p _ => Some p | _ => None end) t.

End scheduler.

(** ** The submission endpoint ([internal/incoming/web/api_files.go]) *)

Module web.

Definition bytes := list Byte.byte.

(** [incoming.ACHFile] *)
Record ACHFile := {
  FileID : string;
  ShardKey : string;
  File : ach.File
}.

(** [pubsub.Message] *)
Record Message := {
  Body : bytes;
  Metadata : gmap string string
}.

(** The request: the route variables of [mux.Vars], and the body.
    [ReadAll limit] is [io.ReadAll] of the body, read through
    [io.LimitReader(_, n)] when [limit = Some n]. *)
Record Request := {
  Vars : gmap string string;
  ReadAll : option Z -> bytes + error
}.

(** [FilesController] with its collaborators: the compliance transform
    configured in [cfg.Transform], the ACH codec and the publisher. *)
Record FilesController := {
  MaxBodyBytes : Z;
  Reveal : bytes -> bytes + error;
  Protect : ACHFile -> bytes + error;
  ReaderRead : bytes -> ach.File + error;
  FileFromJSON : bytes -> option ach.File * option error;
  publisher_Send : Message -> option error
}.

Definition StatusOK : Z := 200.
Definition StatusBadRequest : Z := 400.
Definition StatusInternalServerError : Z := 500.

(** A handler's run: the messages handed to [publisher.Send], and a result. *)
Definition H (A : Type) : Type := list Message * A.

Definition readBody (c : FilesController) (req : Request) : bytes + error :=
  let limit := if MaxBodyBytes c >? 0 then Some (MaxBodyBytes c) else None in
  match ReadAll req limit with
  | inr err => inr err
  | inl bs => Reveal c bs
  end.

Definition publishFile (c : FilesController) (shardKey fileID : string) (file : ach.File)
    : H (option error) :=
  match Protect c {| FileID := fileID; ShardKey := shardKey; File := file |} with
  | inr err => ([], Some ("unable to protect incoming file event: " +:+ err))
  | inl bs =>
      let meta := <["shardKey" := shardKey]> (<["fileID" := fileID]> (∅ : gmap string string)) in
      let msg := {| Body := bs; Metadata := meta |} in
      ([msg], publisher_Send c msg)
  end.

(** [vars[key]]: the empty string when the key is absent. *)
Definition var (vars : gmap string string) (key : string) : string :=
  default "" (vars !! key).

(** [CreateFileHandler]: the status written to the response. *)
Definition CreateFileHandler (c : FilesController) (r : Request) : H Z :=
  let shardKey := var (Vars r) "shardKey" in
  let fileID := var (Vars r) "fileID" in
  if String.eqb shardKey "" || String.eqb fileID "" then ([], StatusBadRequest)
  else
    match readBody c r with
    | inr _ => ([], StatusBadRequest)
    | inl bs =>
        let decoded :=
          match ReaderRead c bs with
          | inl file => Some file
          | inr _ =>
              match FileFromJSON c bs with
              | (Some f, None) => Some f
              | _ => None
              end
          end in
        match decoded with
        | None => ([], StatusBadRequest)
        | Some file =>
            match publishFile c shardKey fileID file with
            | (msgs, Some _) => (msgs, StatusInternalServerError)
            | (msgs, None) => (msgs, StatusOK)
            end
        end
    end.

End web.

(** ** Specification-level definitions and sample data *)

Module Spec.

(** The summary of a batch as the processors build it. *)
Definition toBatch (b : ach.Batcher) : models.Batch :=
  {| models.Header := ach.GetHeader b; models.Entries := ach.GetEntries b |}.


Definition header : ach.FileHeader :=
  {| ach.ImmediateOrigin := "231380104"; ach.ImmediateDestination := "121042882" |}.

Definition entry (trace : string) (code : option string) : ach.EntryDetail :=
  {| ach.TraceNumber := trace;
     ach.Addenda98_ :=
       option_map (fun c => {| ach.ChangeCodeText := c;
                               ach.ChangeCodeField := Some {| ach.Code := c |} |}) code |}.

Definition batch (n : Z) (entries : list ach.EntryDetail) : ach.Batcher :=
  {| ach.GetHeader := {| ach.BatchNumber := n; ach.CompanyName := "MOOV" |};
     ach.GetEntries := entries |}.

(** A parsed file with one batch of three entries and no NOC batch. *)
Definition plainFile : ach.File :=
  {| ach.Header := header;
     ach.Batches := [batch 1 [entry "1" None; entry "2" None; entry "3" None]];
     ach.NotificationOfChange := [] |}.

(** A parsed file with two NOC batches carrying the codes C01 and C03. *)
Definition nocFile : ach.File :=
  {| ach.Header := header;
     ach.Batches := [];
     ach.NotificationOfChange :=
       [batch 1 [entry "1" (Some "C01")]; batch 2 [entry "2" (Some "C03")]] |}.


(** [plainFile] with an [ImmediateOrigin] that starts with the byte
    0xff, which is not valid UTF-8. *)
Definition binaryHeaderFile : ach.File :=
  {| ach.Header := {| ach.ImmediateOrigin := String (ascii_of_nat 255) "31380104";
                      ach.ImmediateDestination := "121042882" |};
     ach.Batches := ach.Batches plainFile;
     ach.NotificationOfChange := [] |}.

Definition mockEmitter : rdfi.Emitter := fun _ => None.

Definition corrections (matcher : string) : rdfi.correctionProcessor :=
  {| rdfi.cp_svc := Some mockEmitter;
     rdfi.cp_cfg := {| service.oc_Enabled := true; service.oc_PathMatcher := matcher |} |}.

Definition reconciliation (matcher : string) : rdfi.creditReconciliation :=
  {| rdfi.cr_svc := Some mockEmitter;
     rdfi.cr_cfg := {| service.or_Enabled := true; service.or_PathMatcher := matcher |} |}.

(** A file that failed to parse: [ACHFile] is nil. *)
Definition invalidFile : rdfi.File :=
  {| rdfi.Filepath := "/tmp/staging/invalid.ach"; rdfi.ACHFile := None |}.

(** The shape of what one iteration of [tickAll] adds to the history,
    for the configured shard name [n]. *)
Inductive ShardSegment (s : scheduler.PeriodicScheduler) (n : string)
    : list scheduler.Event -> Prop :=
| SegMissing :
    scheduler.sharding s n = None ->
    ShardSegment s n [scheduler.LogMissingShard n]
| SegNotLeader shard err :
    scheduler.sharding s n = Some shard ->
    ShardSegment s n [scheduler.AcquireLock ("achgateway/rdfi/" +:+ n) (Some err)]
| SegTicked shard effects :
    scheduler.sharding s n = Some shard ->
    ShardSegment s n [scheduler.AcquireLock ("achgateway/rdfi/" +:+ n) None;
                      scheduler.Tick shard effects None]
| SegFailed shard effects err res :
    scheduler.sharding s n = Some shard ->
    ShardSegment s n [scheduler.AcquireLock ("achgateway/rdfi/" +:+ n) None;
                      scheduler.Tick shard effects (Some err);
                      scheduler.AlertError err res].

(** The shard name is in the shard table. *)
Definition found (s : scheduler.PeriodicScheduler) (n : string) : bool :=
  match scheduler.sharding s n with Some _ => true | None => false end.

Definition agent : scheduler.Agent :=
  {| scheduler.Hostname := "sftp.bank.com";
     scheduler.Delete := fun _ _ => None |}.

(** One empty and one non-empty downloaded file. *)
Definition bundle : scheduler.downloadedFiles :=
  {| scheduler.dir := "/tmp/staging";
     scheduler.files := [("/inbound/empty.ach", 0); ("/inbound/moov.ach", 940)] |}.

(** A world in which every collaborator succeeds, except that there is
    no upload agent called "broken". *)
Definition sampleWorld : scheduler.TickWorld :=
  {| scheduler.upload_New :=
       fun name => if String.eqb name "broken" then inr "upload agent not found"
                   else inl agent;
     scheduler.CopyFilesFromRemote := fun _ => inl bundle;
     scheduler.newAuditSaver := fun _ => None;
     scheduler.ProcessFiles := fun _ => None;
     scheduler.deleteFiles := fun _ => None;
     scheduler.deleteEmptyDirs := fun _ _ => None |}.

Definition shardOf (n agentName : string) : service.Shard :=
  {| service.Name := n; service.UploadAgent := agentName |}.

(** Four configured shards: "alpha" has no working agent, "ghost" is
    not in the shard table, the lock of "beta" is held elsewhere, and
    "gamma" is processed. *)
Definition sampleScheduler (keep removeZero : bool) : scheduler.PeriodicScheduler :=
  {| scheduler.odfi :=
       {| scheduler.ShardNames := ["alpha"; "ghost"; "beta"; "gamma"];
          scheduler.Storage :=
            {| service.KeepRemoteFiles := keep;
               service.RemoveZeroByteFiles := removeZero;
               service.CleanupLocalDirectory := true |} |};
     scheduler.sharding :=
       fun n => if String.eqb n "ghost" then None
                else if String.eqb n "alpha" then Some (shardOf n "broken")
                else Some (shardOf n "sftp");
     scheduler.consul :=
       fun _ key => if String.eqb key "achgateway/rdfi/beta"
                    then Some "lock already held" else None;
     scheduler.alerters := fun _ _ => None;
     scheduler.world := fun _ => sampleWorld |}.

(** The body decodes to [file]: it is valid ACH wire format, or it is not
    and is valid ACH-JSON. *)
Definition decodes (c : web.FilesController) (bs : web.bytes) (file : ach.File) : Prop :=
  web.ReaderRead c bs = inl file \/
  ((exists err, web.ReaderRead c bs = inr err) /\
   web.FileFromJSON c bs = (Some file, None)).

(** The body is neither valid ACH wire format nor valid ACH-JSON. *)
Definition undecodable (c : web.FilesController) (bs : web.bytes) : Prop :=
  (exists err, web.ReaderRead c bs = inr err) /\
  (forall file, web.FileFromJSON c bs <> (Some file, None)).

(** A controller without transform and without body limit, whose codec
    accepts every non-empty body as wire format and no JSON at all. *)
Definition sampleController (send : web.Message -> option error) : web.FilesController :=
  {| web.MaxBodyBytes := 0;
     web.Reveal := fun bs => inl bs;
     web.Protect := fun ev => inl [];
     web.ReaderRead :=
       fun bs => match bs with [] => inr "ach: empty file" | _ => inl plainFile end;
     web.FileFromJSON := fun _ => (None, Some "invalid character");
     web.publisher_Send := send |}.

Definition sampleRequest (body : web.bytes) : web.Request :=
  {| web.Vars := <["shardKey" := "testing"]> (<["fileID" := "f1"]> (∅ : gmap string string));
     web.ReadAll := fun _ => inl body |}.

End Spec.

(** ** More of scheduler.go: the dispatch loop and the constructor *)

Module schedulerLoop.
Import scheduler.

(** [tickAll] started in a run whose history so far is [h]; the
    collaborators answer according to the whole history. *)
Definition tickAllFrom (s : PeriodicScheduler) (h : list Event)
    : list Event * option error :=
  (fold_left (tickShard s) (ShardNames (odfi s)) h, None).

(** The case a [select] of [Start] takes: the ticker fired, a manual
    trigger arrived with its reply channel, or the shutdown context is
    done. *)
Inductive Wake :=
| TickerFired
| InboundTrigger (waiter : nat)
| ShutdownDone.

(** A run of [Start]: the history of the ticks, the values sent on the
    reply channels, and what [Start] returned ([None] while it still
    waits in [select]). *)
Record Run := {
  history : list Event;
  replies : list (nat * option error);
  returned : option (option error)
}.

(** [Start], over the cases its [select] takes in turn. *)
Fixpoint Start (s : PeriodicScheduler) (wakes : list Wake)
    (h : list Event) (sentReplies : list (nat * option error)) : Run :=
  match wakes with
  | [] => {| history := h; replies := sentReplies; returned := None |}
  | TickerFired :: ws =>
      let '(h', _) := tickAllFrom s h in
      Start s ws h' sentReplies
  | InboundTrigger waiter :: ws =>
      let '(h', res) := tickAllFrom s h in
      Start s ws h' (sentReplies ++ [(waiter, res)])
  | ShutdownDone :: _ =>
      {| history := h; replies := sentReplies; returned := Some None |}
  end.

(** [service.Config], as far as the constructor reads it.
    [Inbound_ODFI] is the pointer [cfg.Inbound.ODFI]; [Interval] is
    [cfg.Inbound.ODFI.Interval], a [time.Duration], read only when that
    pointer is not nil. *)
Record Config := {
  Inbound_ODFI : option ODFIFiles;
  Interval : Z;
  Sharding : string -> option service.Shard
}.

(** [Downloader]: [CopyFilesFromRemote]. *)
Definition Downloader := Agent -> downloadedFiles + error.

(** [alerting.Alerters]: [AlertError]. *)
Definition Alerters := list Event -> error -> option error.

(** The two constructors [NewPeriodicScheduler] calls:
    [NewDownloader(logger, storage)] and [alerting.NewAlerters(cfg.Errors)]. *)
Record Constructors := {
  NewDownloader : service.ODFIStorage -> Downloader + error;
  NewAlerters : Alerters + error
}.

Inductive ConstructorCall :=
| CallNewDownloader (storage : service.ODFIStorage)
| CallNewAlerters.

(** The fields of the scheduler that come out of the constructor; the
    ticker is made with the period [tickerInterval] and the trigger
    channel with the capacity [inboundTriggerCap]. *)
Record Built := {
  b_odfi : ODFIFiles;
  b_sharding : string -> option service.Shard;
  b_downloader : Downloader;
  b_alerters : Alerters;
  tickerInterval : Z;
  inboundTriggerCap : Z
}.

(** [time.NewTicker(d)] panics for a period that is not positive. *)
Definition NewTicker (d : Z) : rdfi.Res Z :=
  if d <=? 0 then rdfi.Panicked "non-positive interval for NewTicker"
  else rdfi.Val d.

(** [NewPeriodicScheduler]: the constructors called, and what it
    returns (a scheduler or an error) unless it panics. *)
Definition NewPeriodicScheduler (k : Constructors) (cfg : Config)
    : list ConstructorCall * rdfi.Res (Built + error) :=
  match Inbound_ODFI cfg with
  | None => ([], rdfi.Val (inr "missing Inbound ODFI config"))
  | Some o =>
      match NewDownloader k (Storage o) with
      | inr err => ([CallNewDownloader (Storage o)], rdfi.Val (inr err))
      | inl dl =>
          match NewAlerters k with
          | inr err =>
              ([CallNewDownloader (Storage o); CallNewAlerters],
               rdfi.Val (inr ("ERROR creating alerters: " +:+ err)))
          | inl al =>
              ([CallNewDownloader (Storage o); CallNewAlerters],
               match NewTicker (Interval cfg) with
               | rdfi.Panicked msg => rdfi.Panicked msg
               | rdfi.Val ticker =>
                   rdfi.Val (inl {| b_odfi := o;
                                    b_sharding := Sharding cfg;
                                    b_downloader := dl;
                                    b_alerters := al;
                                    tickerInterval := ticker;
                                    inboundTriggerCap := 1 |})
               end)
          end
      end
  end.

End schedulerLoop.

(** ** More of api_files.go: cancelling a file *)

Module webCancel.
Import web.

(** [incoming.CancelACHFile] *)
Record CancelACHFile := {
  cancel_FileID : string;
  cancel_ShardKey : string
}.

(** [cancelFile]; [protect] is [compliance.Protect] with the configured
    transform, on a cancel event. *)
Definition cancelFile (c : FilesController) (protect : CancelACHFile -> bytes + error)
    (shardKey fileID : string) : H (option error) :=
  match protect {| cancel_FileID := fileID; cancel_ShardKey := shardKey |} with
  | inr err => ([], Some ("unable to protect cancel file event: " +:+ err))
  | inl bs =>
      let meta := <["shardKey" := shardKey]> (<["fileID" := fileID]> (∅ : gmap string string)) in
      let msg := {| Body := bs; Metadata := meta |} in
      ([msg], publisher_Send c msg)
  end.

Definition CancelFileHandler (c : FilesController)
    (protect : CancelACHFile -> bytes + error) (r : Request) : H Z :=
  let shardKey := var (Vars r) "shardKey" in
  let fileID := var (Vars r) "fileID" in
  if String.eqb shardKey "" || String.eqb fileID "" then ([], StatusBadRequest)
  else
    match cancelFile c protect shardKey fileID with
    | (msgs, Some _) => (msgs, StatusInternalServerError)
    | (msgs, None) => (msgs, StatusOK)
    end.

End webCancel.

(** ** Further specification-level definitions *)

Module SpecMore.

(** The change code an entry is counted under, if it carries an
    Addenda98 whose code is in the table. *)
Definition entryCode (e : ach.EntryDetail) : option string :=
  match ach.Addenda98_ e with
  | Some a98 => option_map ach.Code (ach.ChangeCodeField a98)
  | None => None
  end.

(** The entry can be counted: it carries no Addenda98, or its change
    code is in the table and the label values of the counter (origin,
    destination, code) are valid UTF-8. *)
Definition entryCounts (f : ach.File) (e : ach.EntryDetail) : bool :=
  match ach.Addenda98_ e with
  | Some a98 =>
      match ach.ChangeCodeField a98 with
      | Some cc => rdfi.labelsValid (rdfi.correctionLabels f (ach.Code cc))
      | None => false
      end
  | None => true
  end.

(** The change codes of a file: over its NotificationOfChange batches
    and their entries, in order. *)
Definition changeCodes (f : ach.File) : list string :=
  flat_map (fun b => omap entryCode (ach.GetEntries b)) (ach.NotificationOfChange f).

(** Every entry of every NotificationOfChange batch can be counted. *)
Definition countable (f : ach.File) : bool :=
  forallb (fun b => forallb (entryCounts f) (ach.GetEntries b))
          (ach.NotificationOfChange f).

(** The increment of correction_codes_processed for the code [c]. *)
Definition codeIncrement (f : ach.File) (c : string) : rdfi.Effect :=
  rdfi.CounterAdd "correction_codes_processed" (rdfi.correctionLabels f c).

(** Projections of a scheduler history. *)
Definition missingShards (h : list scheduler.Event) : list string :=
  omap (fun e => match e with scheduler.LogMissingShard n => Some n | _ => None end) h.
Definition acquired (h : list scheduler.Event) : list string :=
  omap (fun e => match e with scheduler.AcquireLock k None => Some k | _ => None end) h.
Definition ticked (h : list scheduler.Event) : list service.Shard :=
  omap (fun e => match e with scheduler.Tick sh _ _ => Some sh | _ => None end) h.

(** The local cleanup steps among the effects of a tick. *)
Definition localCleanups (t : list scheduler.TickEffect) : list scheduler.TickEffect :=
  List.filter (fun e => match e with
                        | scheduler.LocalDeleteFiles
                        | scheduler.LocalDeleteEmptyDirs => true
                        | _ => false
                        end) t.

(** The cases served before the first shutdown. *)
Fixpoint served (wakes : list schedulerLoop.Wake) : list schedulerLoop.Wake :=
  match wakes with
  | [] => []
  | schedulerLoop.ShutdownDone :: _ => []
  | w :: ws => w :: served ws
  end.

(** The waiters of the manual triggers among some cases. *)
Definition waiters (wakes : list schedulerLoop.Wake) : list nat :=
  omap (fun w => match w with schedulerLoop.InboundTrigger n => Some n | _ => None end) wakes.

(** [Spec.nocFile] under a header whose origin is not valid UTF-8. *)
Definition binaryHeaderNocFile : ach.File :=
  {| ach.Header := ach.Header Spec.binaryHeaderFile;
     ach.Batches := [];
     ach.NotificationOfChange := ach.NotificationOfChange Spec.nocFile |}.

(** A file with a NOC entry whose change code is not in the table. *)
Definition unknownCodeFile : ach.File :=
  {| ach.Header := Spec.header;
     ach.Batches := [];
     ach.NotificationOfChange :=
       [Spec.batch 1 [Spec.entry "1" (Some "C01");
                      {| ach.TraceNumber := "2";
                         ach.Addenda98_ := Some {| ach.ChangeCodeText := "C99";
                                                   ach.ChangeCodeField := None |} |}]] |}.

(** A transport agent on which every delete fails. *)
Definition readOnlyAgent : scheduler.Agent :=
  {| scheduler.Hostname := "sftp.bank.com";
     scheduler.Delete := fun _ _ => Some "permission denied" |}.

Definition readOnlyWorld : scheduler.TickWorld :=
  {| scheduler.upload_New := fun _ => inl readOnlyAgent;
     scheduler.CopyFilesFromRemote := fun _ => inl Spec.bundle;
     scheduler.newAuditSaver := fun _ => None;
     scheduler.ProcessFiles := fun _ => None;
     scheduler.deleteFiles := fun _ => None;
     scheduler.deleteEmptyDirs := fun _ _ => None |}.

(** A world in which processing the files fails. *)
Definition failingProcessWorld : scheduler.TickWorld :=
  {| scheduler.upload_New := fun _ => inl Spec.agent;
     scheduler.CopyFilesFromRemote := fun _ => inl Spec.bundle;
     scheduler.newAuditSaver := fun _ => None;
     scheduler.ProcessFiles := fun _ => Some "processing /inbound/moov.ach";
     scheduler.deleteFiles := fun _ => None;
     scheduler.deleteEmptyDirs := fun _ _ => None |}.

Definition sampleConstructors (alertersFail : bool) : schedulerLoop.Constructors :=
  {| schedulerLoop.NewDownloader := fun _ => inl (fun _ => inl Spec.bundle);
     schedulerLoop.NewAlerters :=
       if alertersFail then inr "unknown alerter" else inl (fun _ _ => None) |}.

(** The sample shards, served every [interval] nanoseconds. *)
Definition sampleConfig (interval : Z) : schedulerLoop.Config :=
  {| schedulerLoop.Inbound_ODFI := Some (scheduler.odfi (Spec.sampleScheduler true false));
     schedulerLoop.Interval := interval;
     schedulerLoop.Sharding := scheduler.sharding (Spec.sampleScheduler true false) |}.

End SpecMore.

(** * Properties *)

(** ** Strings *)

Module GoStrFacts.
Import GoStr.

Lemma append_nil_l (s : string) : "" +:+ s = s.
Proof. reflexivity. Qed.

Lemma append_cons (c : ascii) (a b : string) :
  String c a +:+ b = String c (a +:+ b).
Proof. reflexivity. Qed.

Ltac app_simpl := rewrite ?append_cons, ?append_nil_l in *.

Lemma append_nil_r (s : string) : s +:+ "" = s.
Proof. induction s as [|c s IH]; app_simpl; [reflexivity | now rewrite IH]. Qed.

Lemma append_assoc (a b c : string) : (a +:+ b) +:+ c = a +:+ (b +:+ c).
Proof. induction a as [|x a IH]; app_simpl; [reflexivity | now rewrite IH]. Qed.

Lemma HasPrefix_spec (s p : string) :
  HasPrefix s p = true <-> exists post, s = p +:+ post.
Proof.
  revert s. induction p as [|a p IH]; intros s; simpl.
  - split; [intros _; now exists s | reflexivity].
  - destruct s as [|b s].
    + split; [discriminate | intros [post H]; discriminate].
    + destruct (Ascii.eqb a b) eqn:E.
      * apply Ascii.eqb_eq in E. subst b. rewrite IH.
        split; intros [post H]; exists post; app_simpl;
          [now rewrite H | now inversion H].
      * apply Ascii.eqb_neq in E.
        split; [discriminate | intros [post H]; app_simpl; inversion H; congruence].
Qed.

Lemma Index_lower_bound (s sub : string) : -1 <= Index s sub.
Proof.
  induction s as [|c s IH]; simpl.
  - destruct (HasPrefix "" sub); lia.
  - destruct (HasPrefix (String c s) sub); [lia|].
    destruct (Index s sub <? 0) eqn:E; [lia|]. apply Z.ltb_ge in E. lia.
Qed.

(** [strings.Contains] decides the occurrence of the substring. *)
Lemma Contains_occurs (s sub : string) :
  Contains s sub = true <-> occurs sub s.
Proof.
  unfold Contains, occurs. rewrite Z.geb_le.
  induction s as [|c s IH]; simpl.
  - destruct (HasPrefix "" sub) eqn:E.
    + split; [intros _ | lia].
      apply HasPrefix_spec in E as [post E]. exists "", post. exact E.
    + split; [lia|]. intros (pre & post & H).
      destruct pre; app_simpl.
      * assert (HasPrefix "" sub = true) by (apply HasPrefix_spec; eauto).
        congruence.
      * discriminate.
  - destruct (HasPrefix (String c s) sub) eqn:E.
    + split; [intros _ | lia].
      apply HasPrefix_spec in E as [post E]. exists "", post. exact E.
    + pose proof (Index_lower_bound s sub) as Hlb.
      destruct (Index s sub <? 0) eqn:E'.
      * apply Z.ltb_lt in E'. split; [lia|].
        intros (pre & post & H). destruct pre as [|x pre]; app_simpl.
        -- assert (HasPrefix (String c s) sub = true)
             by (apply HasPrefix_spec; eauto).
           congruence.
        -- inversion H; subst. apply proj2 in IH.
           assert (0 <= Index (pre +:+ sub +:+ post) sub) by eauto. lia.
      * apply Z.ltb_ge in E'. split; [intros _ | lia].
        apply proj1 in IH. destruct (IH E') as (pre & post & H).
        exists (String c pre), post. app_simpl. now rewrite H.
Qed.

Lemma Contains_false_not_occurs (s sub : string) :
  Contains s sub = false <-> ~ occurs sub s.
Proof.
  rewrite <- Contains_occurs. destruct (Contains s sub); split; congruence.
Qed.

Lemma lowerByte_idem (c : ascii) : lowerByte (lowerByte c) = lowerByte c.
Proof. destruct c as [[] [] [] [] [] [] [] []]; reflexivity. Qed.

Lemma ToLower_idem (s : string) : ToLower (ToLower s) = ToLower s.
Proof.
  induction s as [|c s IH]; simpl; [reflexivity|].
  now rewrite lowerByte_idem, IH.
Qed.

Lemma ToLower_app (a b : string) : ToLower (a +:+ b) = ToLower a +:+ ToLower b.
Proof.
  induction a as [|c a IH]; app_simpl; simpl; app_simpl;
    [reflexivity | now rewrite IH].
Qed.

(** A splitting of the lower-cased string comes from a splitting of the
    string itself. *)
Lemma ToLower_split (s a b : string) :
  ToLower s = a +:+ b ->
  exists s1 s2, s = s1 +:+ s2 /\ ToLower s1 = a /\ ToLower s2 = b.
Proof.
  revert s. induction a as [|x a IH]; intros s H; app_simpl.
  - exists "", s. auto.
  - destruct s as [|c s]; simpl in H; [discriminate|].
    inversion H as [[Hc Hs]]. destruct (IH s Hs) as (s1 & s2 & -> & H1 & H2).
    exists (String c s1), s2. app_simpl. simpl. rewrite H1. auto.
Qed.

(** Case-insensitive occurrence is occurrence after lower-casing both sides. *)
Lemma occursFold_lower (m s : string) :
  occursFold m s <-> occurs (ToLower m) (ToLower s).
Proof.
  unfold occursFold, occurs, equalFold. split.
  - intros (pre & mid & post & -> & E).
    exists (ToLower pre), (ToLower post).
    now rewrite !ToLower_app, E.
  - intros (pre & post & E).
    apply ToLower_split in E as (s1 & s23 & -> & H1 & E).
    apply ToLower_split in E as (s2 & s3 & -> & H2 & H3).
    exists s1, s2, s3. subst. auto.
Qed.

Example Index_chicken : Index "chicken" "ken" = 4 /\ Index "chicken" "dmr" = -1.
Proof. split; reflexivity. Qed.

Example Contains_empty : Contains "" "" = true /\ Contains "seafood" "" = true.
Proof. split; reflexivity. Qed.

Example ToLower_path :
  ToLower "/Reconciliation/fileMoovTester_TRANACTIONSFAKE.TXT"
  = "/reconciliation/filemoovtester_tranactionsfake.txt".
Proof. reflexivity. Qed.

Example Base_cases :
  Base "" = "." /\ Base "///" = "/" /\ Base "/foo/bar/" = "bar" /\
  Base "moov.ach" = "moov.ach" /\ Base "/corrections/moov.ach" = "moov.ach".
Proof. repeat split; reflexivity. Qed.

End GoStrFacts.

(** ** Processors *)

Module ProcessorFacts.
Import GoStr GoStrFacts rdfi Spec.




(** Every parsed file passes [isCorrectionFile]: a length is never negative. *)
Lemma isCorrectionFile_parsed (file : File) (f : ach.File) :
  ACHFile file = Some f -> isCorrectionFile file = ret true.
Proof.
  intros H. unfold isCorrectionFile. rewrite H. simpl.
  unfold ret. do 2 f_equal. apply Z.geb_le. lia.
Qed.

(** What reaches the emitter: every event handed to [sendEvent] when an
    emitter is configured, nothing otherwise. *)
Lemma sendEvent_sent (svc : option Emitter) (ev : models.Event) :
  emitted (trace (sendEvent svc ev)) = [ev] /\
  sent (trace (sendEvent svc ev)) = (match svc with Some _ => [ev] | None => [] end).
Proof. destruct svc; split; reflexivity. Qed.

(** The reconciliation path test, unfolded. *)
Lemma isReconciliationFile_iff (cfg : service.ODFIReconciliation) (file : File) :
  isReconciliationFile cfg file = true <->
  service.or_Enabled cfg = true /\ service.or_PathMatcher cfg <> "" /\
  occurs (service.or_PathMatcher cfg) (ToLower (Filepath file)).
Proof.
  unfold isReconciliationFile. rewrite <- Contains_occurs.
  destruct (service.or_Enabled cfg); simpl; [|intuition congruence].
  rewrite andb_true_iff, negb_true_iff, String.eqb_neq. intuition.
Qed.

(** The correction path filter, unfolded. *)
Lemma correctionPathPasses_iff (cfg : service.ODFICorrections) (file : File) :
  correctionPathPasses cfg file = true <->
  service.oc_PathMatcher cfg = "" \/
  occurs (service.oc_PathMatcher cfg) (ToLower (Filepath file)).
Proof.
  unfold correctionPathPasses, correctionPathSkips. rewrite <- Contains_occurs.
  rewrite negb_true_iff, andb_false_iff, !negb_false_iff, String.eqb_eq.
  reflexivity.
Qed.

(** The reconciliation processor guards against a nil document: it
    answers with an error and does nothing else. *)
Lemma reconciliationHandle_nil (pc : creditReconciliation) (path : string) :
  reconciliationHandle pc {| Filepath := path; ACHFile := None |}
  = ([], Val (Some "nil ach.File")).
Proof. reflexivity. Qed.

Lemma reconciliationHandle_skip (pc : creditReconciliation) (file : File) (f : ach.File) :
  ACHFile file = Some f ->
  isReconciliationFile (cr_cfg pc) file = false ->
  reconciliationHandle pc file = ([], Val None).
Proof.
  intros Hf Hc. unfold reconciliationHandle. rewrite Hf, Hc. reflexivity.
Qed.

Lemma correctionHandle_skip (pc : correctionProcessor) (file : File) (f : ach.File) :
  ACHFile file = Some f ->
  result (isCorrectionFile file) = Val false \/
  correctionPathPasses (cp_cfg pc) file = false ->
  correctionHandle pc file = ([], Val None).
Proof.
  intros Hf [Hc | Hp].
  - rewrite (isCorrectionFile_parsed file f Hf) in Hc. discriminate.
  - unfold correctionHandle. apply negb_false_iff in Hp.
    rewrite (isCorrectionFile_parsed file f Hf). unfold bind, ret. simpl.
    rewrite Hp. reflexivity.
Qed.

(** A parsed file that passes the path filter is reported even when it
    has no NotificationOfChange batch at all. *)
Lemma correctionHandle_no_noc (pc : correctionProcessor) (file : File) (f : ach.File) :
  ACHFile file = Some f ->
  ach.NotificationOfChange f = [] ->
  correctionPathPasses (cp_cfg pc) file = true ->
  result (correctionHandle pc file) = Val None /\
  emitted (trace (correctionHandle pc file))
  = [models.EvCorrection {| models.cf_Filename := Base (Filepath file);
                            models.cf_File := f;
                            models.Corrections := [] |}].
Proof.
  intros Hf Hn Hp. unfold correctionHandle. apply negb_true_iff in Hp.
  rewrite (isCorrectionFile_parsed file f Hf). unfold bind at 1. unfold ret at 1.
  simpl negb. cbv iota. rewrite Hp, Hf. simpl. rewrite Hn. simpl.
  destruct (cp_svc pc); split; reflexivity.
Qed.

(** A processor is registered exactly when its configuration is enabled. *)
Lemma emitters_enabled (cc : service.ODFICorrections) (rc : service.ODFIReconciliation)
    (svc : option Emitter) :
  (CorrectionEmitter cc svc = None <-> service.oc_Enabled cc = false) /\
  (CreditReconciliationEmitter rc svc = None <-> service.or_Enabled rc = false).
Proof.
  unfold CorrectionEmitter, CreditReconciliationEmitter.
  destruct (service.oc_Enabled cc), (service.or_Enabled rc); simpl;
    repeat split; congruence.
Qed.

(** *** Properties of the processors *)

(** C1 (defect in [isCorrectionFile]).  The test [len(...) >= 0] holds
    for every parsed file, so a file without any NotificationOfChange
    batch is still reported: with no path matcher, [Handle] hands one
    CorrectionFile event with an empty list of corrections to the
    emitter (and increments no counter). *)
Theorem C1_file_without_noc_batch_emits :
  let file := {| Filepath := "/inbound/moov.ach"; ACHFile := Some plainFile |} in
  let run := correctionHandle (corrections "") file in
  ach.NotificationOfChange plainFile = [] /\
  result (isCorrectionFile file) = Val true /\
  result run = Val None /\
  emitted (trace run)
  = [models.EvCorrection {| models.cf_Filename := "moov.ach";
                            models.cf_File := plainFile;
                            models.Corrections := [] |}] /\
  sent (trace run) = emitted (trace run) /\
  increments (trace run) = [].
Proof. vm_compute. repeat split. Qed.

(** C2 (defect in [correctionProcessor.Handle]).  On a file whose
    [ACHFile] is nil, what [Handle] does depends on the processor.  The
    correction processor reads [file.ACHFile.NotificationOfChange]
    before any guard and panics with a nil dereference, whatever its
    configuration and the path; the reconciliation processor guards at
    the top and returns an error.  Neither has any effect before that. *)
Theorem C2_correction_handle_nil_file_panics (p : Processor) (path : string) :
  let file := {| Filepath := path; ACHFile := None |} in
  trace (Handle p file) = [] /\
  result (Handle p file)
  = match p with
    | ProcCorrection _ => Panicked nilDeref
    | ProcReconciliation _ => Val (Some "nil ach.File")
    end.
Proof. destruct p as [pc | pc]; split; reflexivity. Qed.

(** C5 (counterexample).  The reconciliation processor does not
    recognize the unparsed file, and its [Handle] returns an error, not ok. *)
Lemma C5_nil_file_is_an_error :
  let p := ProcReconciliation (reconciliation "/reconciliation/") in
  isReconciliationFile (cr_cfg (reconciliation "/reconciliation/")) invalidFile = false /\
  Handle p invalidFile = ([], Val (Some "nil ach.File")) /\
  result (Handle p invalidFile) <> Val None.
Proof. cbv zeta. split; [|split]; [vm_compute; reflexivity | reflexivity | discriminate]. Qed.

(** C5 (amended).  For every File whose parsed document is non-nil and
    that a processor's classifier does not recognize (the reconciliation
    path test fails; for the correction processor, [isCorrectionFile]
    fails or the path filter rejects the file), [Handle] returns ok and
    has no effect: no event, no counter.  On a File whose [ACHFile] is
    nil the reconciliation processor emits nothing and returns the
    error "nil ach.File". *)
Theorem C5_unrecognized_file_is_skipped (file : File) (f : ach.File) :
  ACHFile file = Some f ->
  (forall pc, isReconciliationFile (cr_cfg pc) file = false ->
     Handle (ProcReconciliation pc) file = ([], Val None)) /\
  (forall pc, result (isCorrectionFile file) = Val false \/
              correctionPathPasses (cp_cfg pc) file = false ->
     Handle (ProcCorrection pc) file = ([], Val None)) /\
  (forall pc path,
     Handle (ProcReconciliation pc) {| Filepath := path; ACHFile := None |}
     = ([], Val (Some "nil ach.File"))).
Proof.
  intros Hf. repeat split.
  - intros pc Hc. now apply reconciliationHandle_skip with f.
  - intros pc Hc. now apply correctionHandle_skip with f.
Qed.

(** The correction file of scenario S1 is skipped by the reconciliation
    processor, and by a correction processor configured for another path. *)
Lemma C5_unrecognized_file_is_skipped_witness :
  let file := {| Filepath := "/corrections/moov.ach"; ACHFile := Some nocFile |} in
  Handle (ProcReconciliation (reconciliation "/reconciliation/")) file = ([], Val None) /\
  Handle (ProcCorrection (corrections "/returns/")) file = ([], Val None).
Proof.
  pose proof (C5_unrecognized_file_is_skipped
                {| Filepath := "/corrections/moov.ach"; ACHFile := Some nocFile |}
                nocFile eq_refl) as (Hr & Hc & _).
  split.
  - apply Hr. vm_compute. reflexivity.
  - apply Hc. right. vm_compute. reflexivity.
Defined.

(** C7 (counterexample).  The configuration is enabled, the matcher is
    not empty and the file's path contains it, verbatim and a fortiori
    up to case; the file is still not a reconciliation file, because the
    path is lower-cased before the test and the matcher is not. *)
Lemma C7_upper_case_matcher_never_matches :
  let cfg := {| service.or_Enabled := true;
                service.or_PathMatcher := "/Reconciliation/" |} in
  let file := {| Filepath := "/Reconciliation/fileMoovTester_TRANACTIONSFAKE.TXT";
                 ACHFile := Some plainFile |} in
  service.or_Enabled cfg = true /\
  service.or_PathMatcher cfg <> "" /\
  occurs (service.or_PathMatcher cfg) (Filepath file) /\
  occursFold (service.or_PathMatcher cfg) (Filepath file) /\
  isReconciliationFile cfg file = false.
Proof.
  simpl. split; [reflexivity|]. split; [discriminate|]. split; [|split].
  - exists "", "fileMoovTester_TRANACTIONSFAKE.TXT". reflexivity.
  - exists "", "/Reconciliation/", "fileMoovTester_TRANACTIONSFAKE.TXT".
    split; reflexivity.
  - vm_compute. reflexivity.
Qed.

(** C7 (amended).  For every File, the reconciliation processor treats
    the file as a reconciliation file if and only if its config is
    enabled, its path matcher is not empty and the lower-cased path of
    the file contains the matcher as configured; when the file is not
    one, [Handle] has no effect (no event, no counter increment) and
    returns ok for a parsed file, the error "nil ach.File" for a nil one. *)
Theorem C7_reconciliation_classifier (pc : creditReconciliation) (file : File) :
  (isReconciliationFile (cr_cfg pc) file = true <->
     service.or_Enabled (cr_cfg pc) = true /\
     service.or_PathMatcher (cr_cfg pc) <> "" /\
     occurs (service.or_PathMatcher (cr_cfg pc)) (ToLower (Filepath file))) /\
  (isReconciliationFile (cr_cfg pc) file = false ->
     trace (reconciliationHandle pc file) = [] /\
     result (reconciliationHandle pc file)
     = Val (match ACHFile file with Some _ => None | None => Some "nil ach.File" end)).
Proof.
  split; [apply isReconciliationFile_iff|].
  intros Hc. destruct file as [path [f|]].
  - rewrite (reconciliationHandle_skip pc {| Filepath := path; ACHFile := Some f |}
               f eq_refl Hc).
    split; reflexivity.
  - split; reflexivity.
Qed.

(** The correction file of scenario S1 is not a reconciliation file. *)
Lemma C7_reconciliation_classifier_witness :
  let file := {| Filepath := "/corrections/moov.ach"; ACHFile := Some nocFile |} in
  trace (reconciliationHandle (reconciliation "/reconciliation/") file) = [] /\
  result (reconciliationHandle (reconciliation "/reconciliation/") file) = Val None.
Proof.
  apply (proj2 (C7_reconciliation_classifier
                  (reconciliation "/reconciliation/")
                  {| Filepath := "/corrections/moov.ach"; ACHFile := Some nocFile |})).
  vm_compute. reflexivity.
Defined.

(** C6 (counterexample).  The matcher "/Reconciliation/" occurs in the
    path up to case, yet neither filter matches; with the matcher
    spelled in lower case, equal to it up to case, both match. *)
Lemma C6_matcher_case_matters :
  let file := {| Filepath := "/reconciliation/moov.ach"; ACHFile := Some plainFile |} in
  let upper := "/Reconciliation/" in
  let lower := "/reconciliation/" in
  upper <> "" /\
  occursFold upper (Filepath file) /\
  correctionPathPasses (cp_cfg (corrections upper)) file = false /\
  isReconciliationFile (cr_cfg (reconciliation upper)) file = false /\
  equalFold upper lower /\
  correctionPathPasses (cp_cfg (corrections lower)) file = true /\
  isReconciliationFile (cr_cfg (reconciliation lower)) file = true.
Proof.
  cbv zeta. split; [discriminate|]. split.
  - exists "", "/reconciliation/", "moov.ach". split; reflexivity.
  - repeat split; vm_compute; reflexivity.
Qed.

(** C6 (amended).  For every file path of ASCII bytes and every
    non-empty configured path matcher, the filter of the correction
    processor and the test of the (enabled) reconciliation processor
    match if and only if the matcher, exactly as configured, occurs in
    the lower-cased path.  The result does not change with the case of
    the path; and for a matcher of ASCII bytes that has no upper-case
    letter, it is the occurrence of the matcher in the path compared
    case-insensitively. *)
Theorem C6_path_matcher
    (cc : service.ODFICorrections) (rc : service.ODFIReconciliation) (file : File) :
  isASCII (Filepath file) = true ->
  service.oc_PathMatcher cc <> "" ->
  service.or_PathMatcher rc <> "" ->
  service.or_Enabled rc = true ->
  (correctionPathPasses cc file = true <->
     occurs (service.oc_PathMatcher cc) (ToLower (Filepath file))) /\
  (isReconciliationFile rc file = true <->
     occurs (service.or_PathMatcher rc) (ToLower (Filepath file))) /\
  (forall file',
     isASCII (Filepath file') = true ->
     equalFold (Filepath file') (Filepath file) ->
     correctionPathPasses cc file' = correctionPathPasses cc file /\
     isReconciliationFile rc file' = isReconciliationFile rc file) /\
  (isASCII (service.oc_PathMatcher cc) = true ->
   ToLower (service.oc_PathMatcher cc) = service.oc_PathMatcher cc ->
     (correctionPathPasses cc file = true <->
        occursFold (service.oc_PathMatcher cc) (Filepath file))) /\
  (isASCII (service.or_PathMatcher rc) = true ->
   ToLower (service.or_PathMatcher rc) = service.or_PathMatcher rc ->
     (isReconciliationFile rc file = true <->
        occursFold (service.or_PathMatcher rc) (Filepath file))).
Proof.
  intros _ Hcc Hrc Hen.
  assert (Hc : correctionPathPasses cc file = true <->
               occurs (service.oc_PathMatcher cc) (ToLower (Filepath file))).
  { rewrite correctionPathPasses_iff. intuition. }
  assert (Hr : isReconciliationFile rc file = true <->
               occurs (service.or_PathMatcher rc) (ToLower (Filepath file))).
  { rewrite isReconciliationFile_iff. intuition. }
  split; [exact Hc|]. split; [exact Hr|]. split; [|split].
  - intros file' _ E.
    unfold correctionPathPasses, correctionPathSkips, isReconciliationFile.
    unfold equalFold in E. rewrite E. split; reflexivity.
  - intros _ Hl. rewrite Hc, occursFold_lower, Hl. reflexivity.
  - intros _ Hl. rewrite Hr, occursFold_lower, Hl. reflexivity.
Qed.

(** A lower-case matcher against a path in mixed case. *)
Lemma C6_path_matcher_witness :
  let file := {| Filepath := "/Reconciliation/MOOV.ach"; ACHFile := Some plainFile |} in
  correctionPathPasses (cp_cfg (corrections "/reconciliation/")) file = true /\
  isReconciliationFile (cr_cfg (reconciliation "/reconciliation/")) file = true /\
  occursFold "/reconciliation/" (Filepath file).
Proof.
  pose proof (C6_path_matcher
                (cp_cfg (corrections "/reconciliation/"))
                (cr_cfg (reconciliation "/reconciliation/"))
                {| Filepath := "/Reconciliation/MOOV.ach"; ACHFile := Some plainFile |})
    as H.
  destruct H as (_ & _ & _ & _ & Hr);
    [reflexivity | discriminate | discriminate | reflexivity |].
  split; [vm_compute; reflexivity|]. split; [vm_compute; reflexivity|].
  apply Hr; [reflexivity | reflexivity | vm_compute; reflexivity].
Defined.




(** Scenario S1: two NOC batches with the codes C01 and C03 give one
    CorrectionFile event and one increment for each code. *)
Example correction_fanout :
  let run := correctionHandle (corrections "")
               {| Filepath := "/corrections/moov.ach"; ACHFile := Some nocFile |} in
  result run = Val None /\
  emitted (trace run)
  = [models.EvCorrection
       {| models.cf_Filename := "moov.ach";
          models.cf_File := nocFile;
          models.Corrections := map toBatch (ach.NotificationOfChange nocFile) |}] /\
  increments (trace run)
  = [("correction_codes_processed", correctionLabels nocFile "C01");
     ("correction_codes_processed", correctionLabels nocFile "C03")].
Proof. vm_compute. repeat split. Qed.

(** Scenario S2: a reconciliation file with one batch of three entries. *)
Example reconciliation_path_filter :
  let run := reconciliationHandle (reconciliation "/reconciliation/")
               {| Filepath := "/reconciliation/fileMoovTester_TRANACTIONSFAKE.TXT";
                  ACHFile := Some plainFile |} in
  exists r, emitted (trace run) = [models.EvReconciliation r] /\
            map (fun b => length (models.Entries b)) (models.Reconciliations r) = [3%nat].
Proof. eexists. vm_compute. split; reflexivity. Qed.

End ProcessorFacts.

(** ** The scheduler *)

Module SchedulerFacts.
Import scheduler Spec.

Lemma tickShard_segment (s : PeriodicScheduler) (h : list Event) (n : string) :
  exists seg, tickShard s h n = h ++ seg /\ ShardSegment s n seg.
Proof.
  unfold tickShard. destruct (sharding s n) as [shard|] eqn:Hs.
  - destruct (consul s h _) as [err|].
    + eexists. split; [reflexivity|]. now apply SegNotLeader with shard.
    + destruct (tick s _ shard) as [effects [err|]]; simpl.
      * eexists. split.
        -- rewrite <- !app_assoc. simpl. reflexivity.
        -- now apply SegFailed.
      * eexists. split.
        -- rewrite <- !app_assoc. simpl. reflexivity.
        -- now apply SegTicked.
  - eexists. split; [reflexivity|]. now apply SegMissing.
Qed.

(** The history of the loop is one segment for every configured shard
    name, in configuration order. *)
Lemma tickLoop_segments (s : PeriodicScheduler) (names : list string) (h : list Event) :
  exists segs,
    fold_left (tickShard s) names h = h ++ concat segs /\
    Forall2 (ShardSegment s) names segs.
Proof.
  revert h. induction names as [|n names IH]; intros h; simpl.
  - exists []. simpl. rewrite app_nil_r. split; [reflexivity | constructor].
  - destruct (tickShard_segment s h n) as (seg & -> & Hseg).
    destruct (IH (h ++ seg)) as (segs & -> & Hsegs).
    exists (seg :: segs). simpl. rewrite <- app_assoc.
    split; [reflexivity | now constructor].
Qed.

Lemma segments_lockKeys (s : PeriodicScheduler) (names : list string)
    (segs : list (list Event)) :
  Forall2 (ShardSegment s) names segs ->
  lockKeys (concat segs)
  = map (fun n => "achgateway/rdfi/" +:+ n) (List.filter (found s) names).
Proof.
  induction 1 as [|n seg names segs Hseg _ IH]; simpl; [reflexivity|].
  unfold lockKeys in *. rewrite omap_app, IH. unfold found at 2.
  destruct Hseg as [Hs | shard err Hs | shard eff Hs | shard eff err res Hs];
    rewrite Hs; reflexivity.
Qed.


(** *** Properties of the scheduler *)


(** C9.  The history of [tickAll] consists of one segment for every
    configured shard name [n], in order.  A segment in which [tick] runs
    starts with the successful acquisition of the key
    "achgateway/rdfi/" followed by [n], and that is the only lock
    acquired in it; every key acquired at all has this form. *)
Theorem C9_leader_key (s : PeriodicScheduler) :
  (exists segs,
     fst (tickAll s) = concat segs /\
     Forall2 (ShardSegment s) (ShardNames (odfi s)) segs) /\
  (forall n seg shard effects res,
     ShardSegment s n seg -> In (Tick shard effects res) seg ->
     exists rest,
       seg = AcquireLock ("achgateway/rdfi/" +:+ n) None :: Tick shard effects res :: rest /\
       lockKeys seg = ["achgateway/rdfi/" +:+ n] /\
       sharding s n = Some shard) /\
  (forall key res,
     In (AcquireLock key res) (fst (tickAll s)) ->
     exists n, In n (ShardNames (odfi s)) /\ key = "achgateway/rdfi/" +:+ n).
Proof.
  assert (Hsegs := tickLoop_segments s (ShardNames (odfi s)) []).
  split; [exact Hsegs|]. split.
  - intros n seg shard effects res Hseg Hin.
    destruct Hseg as [Hs | sh err Hs | sh eff Hs | sh eff err r Hs]; simpl in Hin.
    + destruct Hin as [H|[]]. discriminate.
    + destruct Hin as [H|[]]. discriminate.
    + destruct Hin as [H|[H|[]]]; [discriminate|]. inversion H; subst.
      eexists. repeat split; eauto.
    + destruct Hin as [H|[H|[H|[]]]]; try discriminate. inversion H; subst.
      eexists. repeat split; eauto.
  - destruct Hsegs as (segs & Hh & HF). unfold tickAll in *. simpl in *.
    rewrite Hh. clear Hh. intros key res Hin.
    induction HF as [|n seg names segs Hseg _ IH]; simpl in Hin; [contradiction|].
    apply in_app_or in Hin as [Hin | Hin].
    + exists n. split; [now left|].
      destruct Hseg; simpl in Hin;
        repeat (destruct Hin as [Hin | Hin]; [inversion Hin; subst; try reflexivity|]);
        try contradiction.
    + destruct (IH Hin) as (n' & Hn' & ->). exists n'. split; [now right | reflexivity].
Qed.

(** The key acquired for the sample shard "gamma". *)
Lemma C9_leader_key_witness :
  exists n, In n ["alpha"; "ghost"; "beta"; "gamma"] /\
            "achgateway/rdfi/gamma" = "achgateway/rdfi/" +:+ n.
Proof.
  apply (proj2 (proj2 (C9_leader_key (sampleScheduler true false)))
           "achgateway/rdfi/gamma" None).
  vm_compute. do 5 right. left. reflexivity.
Defined.

(** A run over the four sample shards: the failure of "alpha" is
    alerted, "ghost" and "beta" are skipped, "gamma" is still processed. *)
Example tickAll_sample :
  tickAll (sampleScheduler true false)
  = ([AcquireLock "achgateway/rdfi/alpha" None;
      Tick (shardOf "alpha" "broken") [] (Some "agent: upload agent not found");
      AlertError "agent: upload agent not found" None;
      LogMissingShard "ghost";
      AcquireLock "achgateway/rdfi/beta" (Some "lock already held");
      AcquireLock "achgateway/rdfi/gamma" None;
      Tick (shardOf "gamma" "sftp") [ProcessedFiles; LocalDeleteFiles] None],
     None).
Proof. vm_compute. reflexivity. Qed.

(** *** Cleanup policy *)

Lemma deleteOnRemote_deletes (agent : Agent) (paths : list string)
    (t : list TickEffect) (failed : option error) :
  remoteDeletes (fst (deleteOnRemote agent paths t failed)) = remoteDeletes t ++ paths.
Proof.
  revert t failed. induction paths as [|p ps IH]; intros t failed; simpl.
  - now rewrite app_nil_r.
  - rewrite IH. unfold remoteDeletes. rewrite omap_app. simpl.
    rewrite <- app_assoc. reflexivity.
Qed.

Lemma remoteDeletes_snoc_local (t : list TickEffect) (e : TickEffect) :
  (e = LocalDeleteFiles \/ e = LocalDeleteEmptyDirs) ->
  remoteDeletes (t ++ [e]) = remoteDeletes t.
Proof.
  intros He. unfold remoteDeletes. rewrite omap_app.
  destruct He as [-> | ->]; simpl; now rewrite app_nil_r.
Qed.

(** With [KeepRemoteFiles] set, the remote deletes of a tick are those of
    [CleanupEmptyFiles], and there are none unless the download, the
    audit set-up and the processing succeeded. *)
Lemma tick_keep_deletes (s : PeriodicScheduler) (w : TickWorld) (shard : service.Shard) :
  service.KeepRemoteFiles (Storage (odfi s)) = true ->
  remoteDeletes (fst (tick s w shard)) = [] \/
  (service.RemoveZeroByteFiles (Storage (odfi s)) = true /\
   exists agent dl,
     upload_New w (service.UploadAgent shard) = inl agent /\
     CopyFilesFromRemote w agent = inl dl /\
     remoteDeletes (fst (tick s w shard))
     = map fst (List.filter (fun f => snd f =? 0) (files dl))).
Proof.
  intros Hkeep. unfold tick.
  destruct (upload_New w _) as [agent|err] eqn:Ha; [|now left].
  destruct (CopyFilesFromRemote w agent) as [dl|err] eqn:Hd; [|now left].
  destruct (newAuditSaver w _); [now left|].
  destruct (ProcessFiles w dl); [now left|].
  rewrite Hkeep. simpl.
  destruct (service.RemoveZeroByteFiles _) eqn:Hz.
  - right. split; [reflexivity|]. exists agent, dl. repeat split; try assumption.
    pose proof (deleteOnRemote_deletes agent
                  (map fst (List.filter (fun f => snd f =? 0) (files dl)))
                  [ProcessedFiles] None) as Hdel.
    unfold CleanupEmptyFiles.
    destruct (deleteOnRemote _ _ _ _) as [t2 [e|]]; simpl in *; [exact Hdel|].
    destruct (service.CleanupLocalDirectory _); simpl;
      rewrite remoteDeletes_snoc_local; auto.
  - left. destruct (service.CleanupLocalDirectory _); reflexivity.
Qed.

(** C4 (counterexample).  [KeepRemoteFiles] is set, and the tick still
    deletes the zero-byte file on the remote, because
    [RemoveZeroByteFiles] is set as well. *)
Lemma C4_zero_byte_file_deleted_despite_keep :
  let s := sampleScheduler true true in
  service.KeepRemoteFiles (Storage (odfi s)) = true /\
  fst (tick s sampleWorld (shardOf "gamma" "sftp"))
  = [ProcessedFiles; RemoteDelete "/inbound/empty.ach" None; LocalDeleteFiles] /\
  remoteDeletes (fst (tick s sampleWorld (shardOf "gamma" "sftp")))
  = ["/inbound/empty.ach"].
Proof. vm_compute. repeat split. Qed.

(** C4 (amended).  For every tick run with keep_remote_files = true:
    when remove_zero_byte_files = false, no remote delete is invoked on
    the transport agent; and any remote delete that is invoked happens
    with remove_zero_byte_files = true, on a file of the download whose
    local size is zero. *)
Theorem C4_keep_remote_files
    (s : PeriodicScheduler) (w : TickWorld) (shard : service.Shard) :
  service.KeepRemoteFiles (Storage (odfi s)) = true ->
  (service.RemoveZeroByteFiles (Storage (odfi s)) = false ->
     remoteDeletes (fst (tick s w shard)) = []) /\
  (forall p, In p (remoteDeletes (fst (tick s w shard))) ->
     service.RemoveZeroByteFiles (Storage (odfi s)) = true /\
     exists agent dl,
       upload_New w (service.UploadAgent shard) = inl agent /\
       CopyFilesFromRemote w agent = inl dl /\
       In (p, 0) (files dl)).
Proof.
  intros Hkeep.
  destruct (tick_keep_deletes s w shard Hkeep)
    as [Hnone | (Hz & agent & dl & Ha & Hd & Hdel)].
  - rewrite Hnone. split; [reflexivity | intros p []].
  - split; [congruence|]. intros p Hin. split; [exact Hz|].
    exists agent, dl. repeat split; try assumption.
    rewrite Hdel in Hin. apply in_map_iff in Hin as ([p' sz] & <- & Hin).
    apply filter_In in Hin as [Hin Hsz]. simpl in *.
    apply Z.eqb_eq in Hsz. now subst sz.
Qed.

(** The sample tick with both remote policies off deletes nothing remotely. *)
Lemma C4_keep_remote_files_witness :
  remoteDeletes (fst (tick (sampleScheduler true false) sampleWorld
                        (shardOf "gamma" "sftp"))) = [].
Proof.
  apply (proj1 (C4_keep_remote_files (sampleScheduler true false) sampleWorld
                  (shardOf "gamma" "sftp") eq_refl)).
  reflexivity.
Defined.

(** The policy matrix on the sample download: without
    [KeepRemoteFiles] every downloaded file is deleted on the remote. *)
Example cleanup_without_keep :
  remoteDeletes (fst (tick (sampleScheduler false false) sampleWorld
                        (shardOf "gamma" "sftp")))
  = ["/inbound/empty.ach"; "/inbound/moov.ach"].
Proof. vm_compute. reflexivity. Qed.

End SchedulerFacts.

(** ** The submission endpoint *)

Module WebFacts.
Import web Spec.

(** The metadata of a published message. *)
Lemma publishFile_message (c : FilesController) (shardKey fileID : string)
    (file : ach.File) (msg : Message) :
  In msg (fst (publishFile c shardKey fileID file)) ->
  fst (publishFile c shardKey fileID file) = [msg] /\
  snd (publishFile c shardKey fileID file) = publisher_Send c msg /\
  Protect c {| FileID := fileID; ShardKey := shardKey; File := file |} = inl (Body msg) /\
  Metadata msg !! "fileID" = Some fileID /\
  Metadata msg !! "shardKey" = Some shardKey /\
  dom (Metadata msg) = {["fileID"; "shardKey"]}.
Proof.
  unfold publishFile. destruct (Protect c _) as [bs|err]; simpl; [|intros []].
  intros [<- | []]. simpl.
  split; [reflexivity|]. split; [reflexivity|]. split; [reflexivity|].
  split; [|split].
  - rewrite lookup_insert_ne by discriminate. apply lookup_insert_eq.
  - apply lookup_insert_eq.
  - rewrite !dom_insert_L, dom_empty_L. set_solver.
Qed.

Lemma decodes_undecodable (c : FilesController) (bs : bytes) :
  (exists file, decodes c bs file) \/ undecodable c bs.
Proof.
  unfold decodes, undecodable. destruct (ReaderRead c bs) as [file|err] eqn:E.
  - left. exists file. now left.
  - destruct (FileFromJSON c bs) as [[f|] [e|]] eqn:J.
    + right. split; [eauto | congruence].
    + left. exists f. right. split; [eauto | reflexivity].
    + right. split; [eauto | congruence].
    + right. split; [eauto | congruence].
Qed.

(** The handler up to the decoding of the body. *)
Lemma CreateFileHandler_decoded (c : FilesController) (r : Request)
    (bs : bytes) (file : ach.File) :
  var (Vars r) "shardKey" <> "" ->
  var (Vars r) "fileID" <> "" ->
  readBody c r = inl bs ->
  decodes c bs file ->
  CreateFileHandler c r
  = (fst (publishFile c (var (Vars r) "shardKey") (var (Vars r) "fileID") file),
     match snd (publishFile c (var (Vars r) "shardKey") (var (Vars r) "fileID") file) with
     | Some _ => StatusInternalServerError
     | None => StatusOK
     end).
Proof.
  intros Hs Hf Hb Hd. unfold CreateFileHandler.
  apply String.eqb_neq in Hs, Hf. rewrite Hs, Hf, Hb. simpl.
  assert (Hdec : match ReaderRead c bs with
                 | inl file => Some file
                 | inr _ => match FileFromJSON c bs with
                            | (Some f, None) => Some f
                            | _ => None
                            end
                 end = Some file).
  { destruct Hd as [-> | [[err ->] ->]]; reflexivity. }
  rewrite Hdec.
  destruct (publishFile c _ _ file) as [msgs [e|]]; reflexivity.
Qed.

(** C8.  For every request to the create-file route: with an empty
    shardKey or fileID, an unreadable body, or a body that is neither
    valid ACH wire format nor valid ACH-JSON, the handler answers 400 and
    hands nothing to the publisher.  Otherwise, when publishing the event
    fails it answers 500; and when it succeeds it answers 200, and the
    one message published carries the metadata fileID and shardKey of
    the route. *)
Theorem C8_create_file_handler (c : FilesController) (r : Request) :
  let shardKey := var (Vars r) "shardKey" in
  let fileID := var (Vars r) "fileID" in
  (shardKey = "" \/ fileID = "" \/
   (exists err, readBody c r = inr err) \/
   (exists bs, readBody c r = inl bs /\ undecodable c bs) ->
   CreateFileHandler c r = ([], StatusBadRequest)) /\
  (forall bs file,
     shardKey <> "" -> fileID <> "" ->
     readBody c r = inl bs -> decodes c bs file ->
     (forall err, snd (publishFile c shardKey fileID file) = Some err ->
        snd (CreateFileHandler c r) = StatusInternalServerError) /\
     (snd (publishFile c shardKey fileID file) = None ->
        snd (CreateFileHandler c r) = StatusOK /\
        exists msg,
          fst (CreateFileHandler c r) = [msg] /\
          publisher_Send c msg = None /\
          Metadata msg !! "fileID" = Some fileID /\
          Metadata msg !! "shardKey" = Some shardKey /\
          dom (Metadata msg) = {["fileID"; "shardKey"]})).
Proof.
  intros shardKey fileID. split.
  - unfold CreateFileHandler. fold shardKey fileID.
    intros [-> | [-> | [[err Hb] | (bs & Hb & (err & Hr) & Hj)]]].
    + reflexivity.
    + now rewrite orb_true_r.
    + rewrite Hb. now destruct (_ || _).
    + rewrite Hb, Hr. destruct (_ || _); [reflexivity|].
      destruct (FileFromJSON c bs) as [[f|] [e|]] eqn:J; try reflexivity.
      now destruct (Hj f).
  - intros bs file Hs Hf Hb Hd.
    rewrite (CreateFileHandler_decoded c r bs file Hs Hf Hb Hd).
    fold shardKey fileID. simpl. split.
    + intros err ->. reflexivity.
    + intros Hnone. rewrite Hnone. split; [reflexivity|].
      pose proof (publishFile_message c shardKey fileID file) as Hmsg.
      unfold publishFile in *.
      destruct (Protect c _) as [body|e]; simpl in *; [|discriminate].
      eexists. split; [reflexivity|].
      edestruct Hmsg as (_ & Hsend & _ & Hm); [left; reflexivity|].
      simpl in *. split; [congruence | exact Hm].
Qed.

(** An empty body, a publisher that fails, and a successful submission. *)
Lemma C8_create_file_handler_witness :
  CreateFileHandler (sampleController (fun _ => None)) (sampleRequest []) = ([], 400) /\
  snd (CreateFileHandler (sampleController (fun _ => Some "pubsub: closed"))
         (sampleRequest [Byte.x31])) = 500 /\
  snd (CreateFileHandler (sampleController (fun _ => None)) (sampleRequest [Byte.x31])) = 200.
Proof.
  split; [|split].
  - apply (proj1 (C8_create_file_handler (sampleController (fun _ => None))
                    (sampleRequest []))).
    right. right. right. exists []. split; [reflexivity|].
    split; [eexists; reflexivity | discriminate].
  - apply (proj1 (proj2 (C8_create_file_handler
                           (sampleController (fun _ => Some "pubsub: closed"))
                           (sampleRequest [Byte.x31]))
                    [Byte.x31] plainFile
                    ltac:(vm_compute; discriminate) ltac:(vm_compute; discriminate)
                    eq_refl (or_introl eq_refl))
             "pubsub: closed").
    reflexivity.
  - apply (proj2 (proj2 (C8_create_file_handler
                           (sampleController (fun _ => None))
                           (sampleRequest [Byte.x31]))
                    [Byte.x31] plainFile
                    ltac:(vm_compute; discriminate) ltac:(vm_compute; discriminate)
                    eq_refl (or_introl eq_refl))).
    reflexivity.
Defined.

End WebFacts.

(** ** More on the processors *)

Module ProcessorMore.
Import GoStr GoStrFacts rdfi Spec SpecMore ProcessorFacts.

#[local] Arguments labelsValid : simpl never.

Lemma emitted_app (t1 t2 : list Effect) : emitted (t1 ++ t2) = emitted t1 ++ emitted t2.
Proof. apply omap_app. Qed.

Lemma sent_app (t1 t2 : list Effect) : sent (t1 ++ t2) = sent t1 ++ sent t2.
Proof. apply omap_app. Qed.

Lemma increments_app (t1 t2 : list Effect) :
  increments (t1 ++ t2) = increments t1 ++ increments t2.
Proof. apply omap_app. Qed.

Lemma emitted_counters (f : ach.File) (codes : list string) :
  emitted (map (codeIncrement f) codes) = [] /\ sent (map (codeIncrement f) codes) = [].
Proof. induction codes as [|c cs [IH1 IH2]]; split; simpl; auto. Qed.

Lemma increments_counters (f : ach.File) (codes : list string) :
  increments (map (codeIncrement f) codes)
  = map (fun c => ("correction_codes_processed", correctionLabels f c)) codes.
Proof. induction codes as [|c cs IH]; simpl; [reflexivity | now rewrite <- IH]. Qed.

(** The UTF-8 check on some byte sequences: ASCII, a two-byte and a
    three-byte encoding, a lone 0xff, an overlong form, a surrogate and
    a truncated sequence. *)
Example ValidString_cases :
  ValidString "231380104" = true /\
  ValidString (String (ascii_of_nat 195) (String (ascii_of_nat 169) "")) = true /\
  ValidString (String (ascii_of_nat 226) (String (ascii_of_nat 130)
                 (String (ascii_of_nat 172) ""))) = true /\
  ValidString (String (ascii_of_nat 255) "31380104") = false /\
  ValidString (String (ascii_of_nat 192) (String (ascii_of_nat 128) "")) = false /\
  ValidString (String (ascii_of_nat 237) (String (ascii_of_nat 160)
                 (String (ascii_of_nat 128) ""))) = false /\
  ValidString (String (ascii_of_nat 226) (String (ascii_of_nat 130) "")) = false.
Proof. repeat split; reflexivity. Qed.

(** The inner loop counts the entries up to the first one that cannot
    be counted, where it panics. *)
Lemma countChangeCodes_run (f : ach.File) (entries : list ach.EntryDetail) :
  exists codes,
    trace (countChangeCodes f entries) = map (codeIncrement f) codes /\
    if forallb (entryCounts f) entries
    then codes = omap entryCode entries /\ result (countChangeCodes f entries) = Val tt
    else exists msg, result (countChangeCodes f entries) = Panicked msg.
Proof.
  unfold countChangeCodes.
  induction entries as [|e es (codes & Ht & Hr)]; simpl.
  - exists []. repeat split.
  - unfold entryCounts at 1, entryCode at 1.
    destruct (ach.Addenda98_ e) as [a98|]; simpl.
    + destruct (ach.ChangeCodeField a98) as [cc|]; simpl.
      * unfold counterAdd.
        destruct (labelsValid (correctionLabels f (ach.Code cc))); simpl.
        -- destruct (forEach es _) as [t r] eqn:E. simpl in *. subst t.
           exists (ach.Code cc :: codes).
           destruct (forallb (entryCounts f) es).
           ++ destruct Hr as [-> ->]. repeat split.
           ++ destruct Hr as [msg ->]. split; [reflexivity | eauto].
        -- exists []. split; [reflexivity | eauto].
      * exists []. split; [reflexivity | eauto].
    + destruct (forEach es _) as [t r] eqn:E. simpl in *. subst t.
      exists codes. destruct (forallb (entryCounts f) es).
      * destruct Hr as [-> ->]. repeat split.
      * destruct Hr as [msg ->]. split; [reflexivity | eauto].
Qed.

(** The outer loop: counters only; it ends with every batch summarized,
    or panics at the first entry that cannot be counted. *)
Lemma correctionLoop_run (f : ach.File) (batches : list ach.Batcher)
    (acc : list models.Batch) :
  exists codes,
    trace (correctionLoop f batches acc) = map (codeIncrement f) codes /\
    if forallb (fun b => forallb (entryCounts f) (ach.GetEntries b)) batches
    then codes = flat_map (fun b => omap entryCode (ach.GetEntries b)) batches /\
         result (correctionLoop f batches acc) = Val (acc ++ map toBatch batches)
    else exists msg, result (correctionLoop f batches acc) = Panicked msg.
Proof.
  revert acc. induction batches as [|b bs IH]; intros acc; simpl.
  - exists []. rewrite app_nil_r. repeat split.
  - destruct (countChangeCodes_run f (ach.GetEntries b)) as (c1 & Ht1 & Hr1).
    destruct (countChangeCodes f (ach.GetEntries b)) as [t1 r1]. simpl in *. subst t1.
    destruct (forallb (entryCounts f) (ach.GetEntries b)); simpl.
    + destruct Hr1 as [-> ->]. simpl.
      destruct (IH (acc ++ [ {| models.Header := ach.GetHeader b;
                                models.Entries := ach.GetEntries b |} ]))
        as (c2 & Ht2 & Hr2).
      destruct (correctionLoop f bs _) as [t2 r2]. simpl in *. subst t2.
      exists (omap entryCode (ach.GetEntries b) ++ c2). rewrite map_app.
      split; [reflexivity|].
      destruct (forallb _ bs).
      * destruct Hr2 as [-> ->]. split; [reflexivity|].
        rewrite <- app_assoc. reflexivity.
      * exact Hr2.
    + destruct Hr1 as [msg ->]. exists c1. split; [reflexivity | eauto].
Qed.

(** The whole of [correctionProcessor.Handle], case by case. *)
Lemma correctionHandle_cases (pc : correctionProcessor) (file : File) :
  match ACHFile file with
  | None => correctionHandle pc file = ([], Panicked nilDeref)
  | Some f =>
      if correctionPathSkips (cp_cfg pc) file
      then correctionHandle pc file = ([], Val None)
      else if countable f
      then correctionHandle pc file
           = (map (codeIncrement f) (changeCodes f)
              ++ trace (sendEvent (cp_svc pc)
                          (models.EvCorrection
                             {| models.cf_Filename := Base (Filepath file);
                                models.cf_File := f;
                                models.Corrections :=
                                  map toBatch (ach.NotificationOfChange f) |})),
              Val None)
      else exists codes msg,
             correctionHandle pc file
             = (map (codeIncrement f) codes, Panicked msg)
  end.
Proof.
  destruct (ACHFile file) as [f|] eqn:Hf.
  - unfold correctionHandle. rewrite (isCorrectionFile_parsed file f Hf).
    unfold bind at 1. unfold ret at 1. simpl negb. cbv iota.
    destruct (correctionPathSkips (cp_cfg pc) file); [reflexivity|].
    rewrite Hf. simpl.
    destruct (correctionLoop_run f (ach.NotificationOfChange f) []) as (codes & Ht & Hr).
    destruct (correctionLoop f (ach.NotificationOfChange f) []) as [t r].
    simpl in *. subst t. unfold countable, changeCodes.
    destruct (forallb _ (ach.NotificationOfChange f)).
    + destruct Hr as [-> ->]. destruct (cp_svc pc); simpl; rewrite ?app_nil_r; reflexivity.
    + destruct Hr as [msg ->]. exists codes, msg. reflexivity.
  - unfold correctionHandle, isCorrectionFile. rewrite Hf. reflexivity.
Qed.

(** X1.  A parsed file that passes the path filter and whose
    NotificationOfChange entries can all be counted (every change code
    is in the table, and origin, destination and code are valid UTF-8):
    [Handle] returns ok; it increments correction_codes_processed once
    for every entry that carries an Addenda98, in order, before anything
    is emitted; and it emits exactly one CorrectionFile event whose
    Corrections are all the NotificationOfChange batches in order,
    batches without entries included. *)
Theorem correction_reports_every_noc_batch
    (pc : correctionProcessor) (file : File) (f : ach.File) :
  ACHFile file = Some f ->
  correctionPathPasses (cp_cfg pc) file = true ->
  countable f = true ->
  let run := correctionHandle pc file in
  let ev := models.EvCorrection
              {| models.cf_Filename := Base (Filepath file);
                 models.cf_File := f;
                 models.Corrections := map toBatch (ach.NotificationOfChange f) |} in
  result run = Val None /\
  trace run = map (codeIncrement f) (changeCodes f) ++ trace (sendEvent (cp_svc pc) ev) /\
  increments (trace run)
  = map (fun c => ("correction_codes_processed", correctionLabels f c)) (changeCodes f) /\
  emitted (trace run) = [ev] /\
  sent (trace run) = (match cp_svc pc with Some _ => [ev] | None => [] end).
Proof.
  intros Hf Hp Hres run ev. apply negb_true_iff in Hp.
  pose proof (correctionHandle_cases pc file) as H.
  rewrite Hf, Hp, Hres in H. fold ev in H. fold run in H. rewrite H.
  unfold result, trace. simpl fst. simpl snd.
  destruct (emitted_counters f (changeCodes f)) as [He Hs].
  rewrite increments_app, emitted_app, sent_app, He, Hs, increments_counters.
  repeat split.
  - destruct (cp_svc pc); simpl; now rewrite app_nil_r.
  - destruct (cp_svc pc); reflexivity.
  - destruct (cp_svc pc); reflexivity.
Qed.

(** Scenario S1 again, through the general statement. *)
Lemma correction_reports_every_noc_batch_witness :
  increments (trace (correctionHandle (corrections "")
                       {| Filepath := "/corrections/moov.ach"; ACHFile := Some nocFile |}))
  = [("correction_codes_processed", correctionLabels nocFile "C01");
     ("correction_codes_processed", correctionLabels nocFile "C03")].
Proof.
  apply (correction_reports_every_noc_batch (corrections "")
           {| Filepath := "/corrections/moov.ach"; ACHFile := Some nocFile |}
           nocFile eq_refl eq_refl eq_refl).
Defined.

(** X2.  [correctionProcessor.Handle] never returns an error: it returns
    ok or panics.  It panics exactly when the parsed document is nil, or
    when the file passes the path filter and some NotificationOfChange
    entry cannot be counted: the change code of its Addenda98 is not in
    the table, or a label value of the counter (origin, destination,
    code) is not valid UTF-8.  When it panics nothing has been emitted,
    though counters may have been incremented; and it never emits more
    than one event. *)
Theorem correction_ok_or_panic (pc : correctionProcessor) (file : File) :
  let run := correctionHandle pc file in
  (result run = Val None \/ exists msg, result run = Panicked msg) /\
  ((exists msg, result run = Panicked msg) <->
     ACHFile file = None \/
     exists f, ACHFile file = Some f /\
               correctionPathPasses (cp_cfg pc) file = true /\
               countable f = false) /\
  ((exists msg, result run = Panicked msg) ->
     emitted (trace run) = [] /\ sent (trace run) = []) /\
  (length (emitted (trace run)) <= 1)%nat.
Proof.
  intros run. pose proof (correctionHandle_cases pc file) as H. fold run in H.
  unfold correctionPathPasses.
  destruct (ACHFile file) as [f|] eqn:Hf.
  - destruct (correctionPathSkips (cp_cfg pc) file) eqn:Hs.
    + rewrite H. unfold result, trace. simpl.
      split; [now left|]. split; [|split; [intros [? ?]; discriminate | auto with arith]].
      split; [intros [? ?]; discriminate|].
      intros [? | (f' & _ & ? & _)]; discriminate.
    + destruct (countable f) eqn:Hr.
      * rewrite H. unfold result, trace. simpl fst. simpl snd.
        destruct (emitted_counters f (changeCodes f)) as [He Hse].
        rewrite emitted_app, He.
        split; [now left|]. split; [|split; [intros [? ?]; discriminate|]].
        -- split; [intros [? ?]; discriminate|].
           intros [? | (f' & Hf' & _ & Hr')]; [discriminate|].
           inversion Hf'; subst. congruence.
        -- destruct (cp_svc pc); simpl; auto with arith.
      * destruct H as (codes & msg & H). rewrite H.
        unfold result, trace. simpl fst. simpl snd.
        destruct (emitted_counters f codes) as [He Hse]. rewrite He, Hse.
        split; [right; eauto|].
        split; [split; [intros _; right; exists f; auto | eauto]|].
        split; [auto | simpl; auto with arith].
  - rewrite H. unfold result, trace. simpl.
    split; [right; eauto|]. split; [split; [auto | eauto]|].
    split; [auto | auto with arith].
Qed.

(** A header that is not valid UTF-8 makes the first counter call panic:
    no increment and no event; an unknown change code after a known one
    leaves one increment and no event. *)
Lemma correction_ok_or_panic_witness :
  let bad := correctionHandle (corrections "")
               {| Filepath := "/corrections/moov.ach";
                  ACHFile := Some binaryHeaderNocFile |} in
  let run := correctionHandle (corrections "")
               {| Filepath := "/corrections/moov.ach"; ACHFile := Some unknownCodeFile |} in
  (emitted (trace bad) = [] /\ sent (trace bad) = [] /\ increments (trace bad) = []) /\
  (emitted (trace run) = [] /\ sent (trace run) = [] /\
   increments (trace run)
   = [("correction_codes_processed", correctionLabels unknownCodeFile "C01")]).
Proof.
  split.
  - pose proof (correction_ok_or_panic (corrections "")
                  {| Filepath := "/corrections/moov.ach";
                     ACHFile := Some binaryHeaderNocFile |})
      as (_ & Hiff & Hp & _).
    destruct Hp as [He Hs].
    { apply Hiff. right. exists binaryHeaderNocFile. repeat split. }
    split; [exact He|]. split; [exact Hs | reflexivity].
  - pose proof (correction_ok_or_panic (corrections "")
                  {| Filepath := "/corrections/moov.ach"; ACHFile := Some unknownCodeFile |})
      as (_ & Hiff & Hp & _).
    destruct Hp as [He Hs].
    { apply Hiff. right. exists unknownCodeFile. repeat split. }
    split; [exact He|]. split; [exact Hs | reflexivity].
Defined.

(** The whole of [creditReconciliation.Handle], case by case. *)
Lemma reconciliationHandle_cases (pc : creditReconciliation) (file : File) :
  match ACHFile file with
  | None => reconciliationHandle pc file = ([], Val (Some "nil ach.File"))
  | Some f =>
      if isReconciliationFile (cr_cfg pc) file
      then if labelsValid (reconciliationLabels f)
           then exists rest,
                  reconciliationHandle pc file
                  = (CounterAdd "credit_reconciliation_files_processed"
                       (reconciliationLabels f) :: rest, Val None) /\
                  increments rest = [] /\
                  (length (emitted rest) <= 1)%nat
           else reconciliationHandle pc file = ([], Panicked invalidLabelValue)
      else reconciliationHandle pc file = ([], Val None)
  end.
Proof.
  unfold reconciliationHandle, counterAdd.
  destruct (ACHFile file) as [f|]; [|reflexivity].
  destruct (isReconciliationFile (cr_cfg pc) file); simpl; [|reflexivity].
  destruct (labelsValid (reconciliationLabels f)); simpl; [|reflexivity].
  destruct (Z.of_nat (length (reconciliationLoop (ach.Batches f) [])) >? 0);
    destruct (cr_svc pc); simpl; eexists; repeat split; simpl; auto with arith.
Qed.

(** X3.  [creditReconciliation.Handle] returns an error exactly when the
    parsed document is nil, and panics exactly when a parsed, recognized
    file has a header origin or destination that is not valid UTF-8 (the
    label values of its counter); either way it has done nothing, and
    otherwise it returns ok.  It increments its counter exactly when the
    document is parsed, the file is recognized and the label values are
    valid; the increment is then its first effect and the only one, and
    an event, at most one, is emitted only after it. *)
Theorem reconciliation_outcomes (pc : creditReconciliation) (file : File) :
  let run := reconciliationHandle pc file in
  let counted :=
    exists f, ACHFile file = Some f /\
              isReconciliationFile (cr_cfg pc) file = true /\
              labelsValid (reconciliationLabels f) = true in
  ((exists e, result run = Val (Some e)) <-> ACHFile file = None) /\
  ((exists msg, result run = Panicked msg) <->
     exists f, ACHFile file = Some f /\
               isReconciliationFile (cr_cfg pc) file = true /\
               labelsValid (reconciliationLabels f) = false) /\
  (result run <> Val None -> trace run = []) /\
  (increments (trace run) <> [] <-> counted) /\
  (forall pre e post,
     trace run = pre ++ e :: post ->
     e = CounterAdd "credit_reconciliation_files_processed"
           (match ACHFile file with
            | Some f => reconciliationLabels f
            | None => []
            end)
     /\ pre = [] \/
     (exists ev, e = Emit ev \/ e = SvcSend ev) /\ increments pre <> [] /\
     increments (e :: post) = []) /\
  (length (emitted (trace run)) <= 1)%nat.
Proof.
  intros run counted. unfold counted.
  pose proof (reconciliationHandle_cases pc file) as H. fold run in H.
  destruct (ACHFile file) as [f|] eqn:Hf.
  - destruct (isReconciliationFile (cr_cfg pc) file) eqn:Hc.
    + destruct (labelsValid (reconciliationLabels f)) eqn:Hv.
      * destruct H as (rest & H & Hinc & Hlen). rewrite H.
        unfold result, trace. simpl fst. simpl snd.
        split; [split; [intros [? ?]; discriminate | discriminate]|].
        split; [split; [intros [? ?]; discriminate|]|].
        { intros (f' & Hf' & _ & Hv'). inversion Hf'; subst. congruence. }
        split; [congruence|].
        split; [split; [intros _; exists f; auto | discriminate]|].
        split; [|exact Hlen].
        intros pre e post Hsplit. destruct pre as [|x pre]; simpl in Hsplit.
        -- left. inversion Hsplit. auto.
        -- right. inversion Hsplit as [[Hx Hrest]]. subst x.
           assert (Hpost : increments (e :: post) = []).
           { rewrite Hrest, increments_app in Hinc.
             now apply app_eq_nil in Hinc as [_ Hinc]. }
           split; [|split; [discriminate | exact Hpost]].
           destruct e as [n l | ev | ev]; [discriminate | eauto | eauto].
      * rewrite H. unfold result, trace. simpl.
        split; [split; [intros [? ?]; discriminate | discriminate]|].
        split; [split; [intros _; exists f; auto | eauto]|].
        split; [auto|].
        split; [split; [congruence|]|].
        { intros (f' & Hf' & _ & Hv'). inversion Hf'; subst. congruence. }
        split; [|auto with arith].
        intros pre e post Hsplit. now destruct pre.
    + rewrite H. unfold result, trace. simpl.
      split; [split; [intros [? ?]; discriminate | discriminate]|].
      split; [split; [intros [? ?]; discriminate|]|].
      { intros (f' & _ & ? & _). discriminate. }
      split; [auto|].
      split; [split; [congruence|]|].
      { intros (f' & _ & ? & _). discriminate. }
      split; [|auto with arith].
      intros pre e post Hsplit. now destruct pre.
  - rewrite H. unfold result, trace. simpl.
    split; [split; [auto | eauto]|].
    split; [split; [intros [? ?]; discriminate|]|].
    { intros (f' & ? & _). discriminate. }
    split; [auto|].
    split; [split; [congruence|]|].
    { intros (f' & ? & _). discriminate. }
    split; [|auto with arith].
    intros pre e post Hsplit. now destruct pre.
Qed.

(** The recognized file with a header that is not valid UTF-8: the
    handler panics and has done nothing. *)
Lemma reconciliation_outcomes_witness :
  trace (reconciliationHandle (reconciliation "/reconciliation/")
           {| Filepath := "/reconciliation/x.ach"; ACHFile := Some binaryHeaderFile |})
  = [].
Proof.
  apply (proj1 (proj2 (proj2 (reconciliation_outcomes
                                (reconciliation "/reconciliation/")
                                {| Filepath := "/reconciliation/x.ach";
                                   ACHFile := Some binaryHeaderFile |})))).
  vm_compute. discriminate.
Defined.

(** X4.  The empty path matcher means opposite things to the two
    processors.  A correction processor with an empty matcher keeps every
    file, whatever its path: every parsed file whose NotificationOfChange
    entries can all be counted is reported with one CorrectionFile event.
    A reconciliation processor with an empty matcher recognizes no file:
    on every file it increments nothing and emits nothing. *)
Theorem empty_path_matcher (cc : service.ODFICorrections) (rc : service.ODFIReconciliation)
    (svc : option Emitter) (file : File) :
  service.oc_PathMatcher cc = "" ->
  service.or_PathMatcher rc = "" ->
  correctionPathPasses cc file = true /\
  (forall f, ACHFile file = Some f -> countable f = true ->
     emitted (trace (correctionHandle {| cp_svc := svc; cp_cfg := cc |} file))
     = [models.EvCorrection
          {| models.cf_Filename := Base (Filepath file);
             models.cf_File := f;
             models.Corrections := map toBatch (ach.NotificationOfChange f) |}]) /\
  isReconciliationFile rc file = false /\
  trace (reconciliationHandle {| cr_svc := svc; cr_cfg := rc |} file) = [].
Proof.
  intros Hc Hr.
  assert (Hskip : correctionPathSkips cc file = false).
  { unfold correctionPathSkips. rewrite Hc. reflexivity. }
  assert (Hrec : isReconciliationFile rc file = false).
  { unfold isReconciliationFile. rewrite Hr. now destruct (service.or_Enabled rc). }
  split; [unfold correctionPathPasses; now rewrite Hskip|]. split; [|split; [exact Hrec|]].
  - intros f Hf Hres.
    pose proof (correctionHandle_cases {| cp_svc := svc; cp_cfg := cc |} file) as H.
    simpl in H. rewrite Hf, Hskip, Hres in H. rewrite H. unfold trace. simpl fst.
    destruct (emitted_counters f (changeCodes f)) as [He _].
    rewrite emitted_app, He. now destruct svc.
  - unfold reconciliationHandle. simpl. rewrite Hrec.
    now destruct (ACHFile file).
Qed.

Lemma empty_path_matcher_witness :
  correctionPathPasses {| service.oc_Enabled := true; service.oc_PathMatcher := "" |}
    {| Filepath := "/anywhere/x.ach"; ACHFile := Some plainFile |} = true /\
  trace (reconciliationHandle (reconciliation "")
           {| Filepath := "/reconciliation/x.ach"; ACHFile := Some plainFile |}) = [].
Proof.
  pose proof (empty_path_matcher
                {| service.oc_Enabled := true; service.oc_PathMatcher := "" |}
                {| service.or_Enabled := true; service.or_PathMatcher := "" |}
                (Some mockEmitter)
                {| Filepath := "/anywhere/x.ach"; ACHFile := Some plainFile |}
                eq_refl eq_refl) as (Hc & _).
  pose proof (empty_path_matcher
                {| service.oc_Enabled := true; service.oc_PathMatcher := "" |}
                {| service.or_Enabled := true; service.or_PathMatcher := "" |}
                (Some mockEmitter)
                {| Filepath := "/reconciliation/x.ach"; ACHFile := Some plainFile |}
                eq_refl eq_refl) as (_ & _ & _ & Hr).
  split; [exact Hc | exact Hr].
Defined.

End ProcessorMore.

(** ** More on the scheduler *)

Module SchedulerMore.
Import scheduler schedulerLoop Spec SpecMore SchedulerFacts.

(** *** One tick *)

(** X5.  A tick deletes nothing unless everything before the cleanup
    went well: when it makes a remote delete or a local cleanup, the
    agent was created, the files were downloaded, the audit saver was
    set up and the files were processed without error.  When one of
    these fails the tick returns the error under the step's prefix. *)
Theorem tick_deletes_only_after_processing
    (s : PeriodicScheduler) (w : TickWorld) (shard : service.Shard) :
  (remoteDeletes (fst (tick s w shard)) <> [] \/
   localCleanups (fst (tick s w shard)) <> [] ->
   exists agent dl,
     upload_New w (service.UploadAgent shard) = inl agent /\
     CopyFilesFromRemote w agent = inl dl /\
     newAuditSaver w (Hostname agent) = None /\
     ProcessFiles w dl = None) /\
  (forall err, upload_New w (service.UploadAgent shard) = inr err ->
     tick s w shard = ([], Some ("agent: " +:+ err))) /\
  (forall agent err,
     upload_New w (service.UploadAgent shard) = inl agent ->
     CopyFilesFromRemote w agent = inr err ->
     tick s w shard = ([], Some ("ERROR: problem copying files: " +:+ err))) /\
  (forall agent dl err,
     upload_New w (service.UploadAgent shard) = inl agent ->
     CopyFilesFromRemote w agent = inl dl ->
     newAuditSaver w (Hostname agent) = Some err ->
     tick s w shard = ([], Some ("ERROR: " +:+ err))) /\
  (forall agent dl err,
     upload_New w (service.UploadAgent shard) = inl agent ->
     CopyFilesFromRemote w agent = inl dl ->
     newAuditSaver w (Hostname agent) = None ->
     ProcessFiles w dl = Some err ->
     tick s w shard = ([ProcessedFiles], Some ("ERROR: processing files: " +:+ err))).
Proof.
  split.
  - unfold tick.
    destruct (upload_New w _) as [agent|e]; [|simpl; intros [H|H]; congruence].
    destruct (CopyFilesFromRemote w agent) as [dl|e] eqn:Hd;
      [|simpl; intros [H|H]; congruence].
    destruct (newAuditSaver w _) eqn:Ha; [simpl; intros [H|H]; congruence|].
    destruct (ProcessFiles w dl) eqn:Hp; [simpl; intros [H|H]; congruence|].
    intros _. exists agent, dl. auto.
  - unfold tick. repeat split.
    + intros err ->. reflexivity.
    + intros agent err -> ->. reflexivity.
    + intros agent dl err -> -> ->. reflexivity.
    + intros agent dl err -> -> -> ->. reflexivity.
Qed.

(** Processing fails: the downloaded files stay on the remote and in the
    staging directory. *)
Lemma tick_deletes_only_after_processing_witness :
  tick (sampleScheduler false true) failingProcessWorld (shardOf "gamma" "sftp")
  = ([ProcessedFiles], Some "ERROR: processing files: processing /inbound/moov.ach").
Proof.
  apply (proj2 (proj2 (proj2 (proj2
           (tick_deletes_only_after_processing (sampleScheduler false true)
              failingProcessWorld (shardOf "gamma" "sftp")))))
           agent bundle "processing /inbound/moov.ach");
    reflexivity.
Defined.

(** The trace of a tick after its remote cleanup steps, when both
    returned nil. *)
Lemma tick_after_processing (s : PeriodicScheduler) (w : TickWorld)
    (shard : service.Shard) (agent : Agent) (dl : downloadedFiles) :
  upload_New w (service.UploadAgent shard) = inl agent ->
  CopyFilesFromRemote w agent = inl dl ->
  newAuditSaver w (Hostname agent) = None ->
  ProcessFiles w dl = None ->
  let storage := Storage (odfi s) in
  let step1 := if negb (service.KeepRemoteFiles storage)
               then Cleanup agent dl [ProcessedFiles]
               else ([ProcessedFiles], None) in
  let step2 := if service.RemoveZeroByteFiles storage
               then CleanupEmptyFiles agent dl (fst step1)
               else (fst step1, None) in
  tick s w shard
  = match snd step1 with
    | Some err => (fst step1, Some ("ERROR: deleting remote files: " +:+ err))
    | None =>
        match snd step2 with
        | Some err => (fst step2, Some ("ERROR: deleting zero byte files: " +:+ err))
        | None =>
            if service.CleanupLocalDirectory storage
            then (fst step2 ++ [LocalDeleteFiles], deleteFiles w dl)
            else (fst step2 ++ [LocalDeleteEmptyDirs], deleteEmptyDirs w dl agent)
        end
    end.
Proof.
  intros Ha Hd Hs Hp storage step1 step2. unfold tick.
  rewrite Ha, Hd, Hs, Hp. fold storage. fold step1.
  destruct step1 as [t1 [e1|]] eqn:E1; simpl; [reflexivity|].
  unfold step2. simpl.
  destruct (service.RemoveZeroByteFiles storage); simpl; [|reflexivity].
  destruct (CleanupEmptyFiles agent dl t1) as [t2 [e2|]]; reflexivity.
Qed.

(** X6.  A tick that returns nil has run every step: the agent, the
    download, the audit saver and the processing succeeded; [Cleanup]
    returned nil unless keep_remote_files is set; [CleanupEmptyFiles]
    returned nil if remove_zero_byte_files is set; and the last thing
    the tick did is the local cleanup, which returned nil:
    [deleteFiles] when cleanup_local_directory is set, [deleteEmptyDirs]
    otherwise. *)
Theorem tick_success_ran_local_cleanup
    (s : PeriodicScheduler) (w : TickWorld) (shard : service.Shard) :
  snd (tick s w shard) = None ->
  exists agent dl t1 t2,
    upload_New w (service.UploadAgent shard) = inl agent /\
    CopyFilesFromRemote w agent = inl dl /\
    newAuditSaver w (Hostname agent) = None /\
    ProcessFiles w dl = None /\
    (if service.KeepRemoteFiles (Storage (odfi s))
     then t1 = [ProcessedFiles]
     else Cleanup agent dl [ProcessedFiles] = (t1, None)) /\
    (if service.RemoveZeroByteFiles (Storage (odfi s))
     then CleanupEmptyFiles agent dl t1 = (t2, None)
     else t2 = t1) /\
    (if service.CleanupLocalDirectory (Storage (odfi s))
     then fst (tick s w shard) = t2 ++ [LocalDeleteFiles] /\ deleteFiles w dl = None
     else fst (tick s w shard) = t2 ++ [LocalDeleteEmptyDirs] /\
          deleteEmptyDirs w dl agent = None).
Proof.
  intros Hnil.
  destruct (upload_New w (service.UploadAgent shard)) as [agent|e] eqn:Ha;
    [|unfold tick in Hnil; rewrite Ha in Hnil; discriminate].
  destruct (CopyFilesFromRemote w agent) as [dl|e] eqn:Hd;
    [|unfold tick in Hnil; rewrite Ha, Hd in Hnil; discriminate].
  destruct (newAuditSaver w (Hostname agent)) eqn:Hs;
    [unfold tick in Hnil; rewrite Ha, Hd, Hs in Hnil; discriminate|].
  destruct (ProcessFiles w dl) eqn:Hp;
    [unfold tick in Hnil; rewrite Ha, Hd, Hs, Hp in Hnil; discriminate|].
  rewrite (tick_after_processing s w shard agent dl Ha Hd Hs Hp) in Hnil |- *.
  destruct (service.KeepRemoteFiles (Storage (odfi s))); simpl in *.
  - destruct (service.RemoveZeroByteFiles (Storage (odfi s))); simpl in *.
    + destruct (CleanupEmptyFiles agent dl [ProcessedFiles]) as [t2 [e2|]] eqn:E2;
        simpl in *; [discriminate|].
      exists agent, dl, [ProcessedFiles], t2.
      destruct (service.CleanupLocalDirectory (Storage (odfi s))); simpl in *;
        repeat split; auto.
    + exists agent, dl, [ProcessedFiles], [ProcessedFiles].
      destruct (service.CleanupLocalDirectory (Storage (odfi s))); simpl in *;
        repeat split; auto.
  - destruct (Cleanup agent dl [ProcessedFiles]) as [t1 [e1|]] eqn:E1;
      simpl in *; [discriminate|].
    destruct (service.RemoveZeroByteFiles (Storage (odfi s))); simpl in *.
    + destruct (CleanupEmptyFiles agent dl t1) as [t2 [e2|]] eqn:E2;
        simpl in *; [discriminate|].
      exists agent, dl, t1, t2.
      destruct (service.CleanupLocalDirectory (Storage (odfi s))); simpl in *;
        repeat split; auto.
    + exists agent, dl, t1, t1.
      destruct (service.CleanupLocalDirectory (Storage (odfi s))); simpl in *;
        repeat split; auto.
Qed.

Lemma tick_success_ran_local_cleanup_witness :
  exists t2,
    fst (tick (sampleScheduler false true) sampleWorld (shardOf "gamma" "sftp"))
    = t2 ++ [LocalDeleteFiles].
Proof.
  destruct (tick_success_ran_local_cleanup (sampleScheduler false true) sampleWorld
              (shardOf "gamma" "sftp") eq_refl)
    as (ag & dl & t1 & t2 & _ & _ & _ & _ & _ & _ & H).
  exists t2. exact (proj1 H).
Defined.

(** X7.  A remote cleanup step that returns an error ends the tick:
    after a failed [Cleanup] neither [CleanupEmptyFiles] nor a local
    cleanup runs, after a failed [CleanupEmptyFiles] no local cleanup
    runs; the effects of the tick are those up to the failed step and
    the error comes back under the step's prefix. *)
Theorem tick_remote_cleanup_failure_aborts
    (s : PeriodicScheduler) (w : TickWorld) (shard : service.Shard)
    (agent : Agent) (dl : downloadedFiles) :
  upload_New w (service.UploadAgent shard) = inl agent ->
  CopyFilesFromRemote w agent = inl dl ->
  newAuditSaver w (Hostname agent) = None ->
  ProcessFiles w dl = None ->
  (forall t1 err,
     service.KeepRemoteFiles (Storage (odfi s)) = false ->
     Cleanup agent dl [ProcessedFiles] = (t1, Some err) ->
     tick s w shard = (t1, Some ("ERROR: deleting remote files: " +:+ err))) /\
  (forall t1 t2 err,
     service.RemoveZeroByteFiles (Storage (odfi s)) = true ->
     (if service.KeepRemoteFiles (Storage (odfi s))
      then t1 = [ProcessedFiles]
      else Cleanup agent dl [ProcessedFiles] = (t1, None)) ->
     CleanupEmptyFiles agent dl t1 = (t2, Some err) ->
     tick s w shard = (t2, Some ("ERROR: deleting zero byte files: " +:+ err))).
Proof.
  intros Ha Hd Hs Hp. split.
  - intros t1 err Hk Hc.
    rewrite (tick_after_processing s w shard agent dl Ha Hd Hs Hp).
    rewrite Hk. simpl. rewrite Hc. reflexivity.
  - intros t1 t2 err Hz Hc Hc2.
    rewrite (tick_after_processing s w shard agent dl Ha Hd Hs Hp).
    rewrite Hz. destruct (service.KeepRemoteFiles (Storage (odfi s))); simpl.
    + subst t1. rewrite Hc2. reflexivity.
    + rewrite Hc. simpl. rewrite Hc2. reflexivity.
Qed.

(** On a remote where deletes are refused, the tick stops after
    [Cleanup] and keeps the staging directory. *)
Lemma tick_remote_cleanup_failure_aborts_witness :
  tick (sampleScheduler false true) readOnlyWorld (shardOf "gamma" "sftp")
  = ([ProcessedFiles;
      RemoteDelete "/inbound/empty.ach" (Some "permission denied");
      RemoteDelete "/inbound/moov.ach" (Some "permission denied")],
     Some "ERROR: deleting remote files: permission denied").
Proof.
  apply (proj1 (tick_remote_cleanup_failure_aborts (sampleScheduler false true)
                  readOnlyWorld (shardOf "gamma" "sftp") readOnlyAgent bundle
                  eq_refl eq_refl eq_refl eq_refl));
    reflexivity.
Defined.

(** *** All shards *)

Lemma leaderKey_inj (n m : string) :
  "achgateway/rdfi/" +:+ n = "achgateway/rdfi/" +:+ m -> n = m.
Proof. intros H. now inversion H. Qed.

Lemma segments_missing (s : PeriodicScheduler) (names : list string)
    (segs : list (list Event)) :
  Forall2 (ShardSegment s) names segs ->
  missingShards (concat segs) = List.filter (fun n => negb (found s n)) names.
Proof.
  induction 1 as [|n seg names segs Hseg _ IH]; simpl; [reflexivity|].
  unfold missingShards in *. rewrite omap_app, IH. unfold found at 2.
  destruct Hseg as [Hs | shard err Hs | shard eff Hs | shard eff err res Hs];
    rewrite Hs; reflexivity.
Qed.

Lemma segments_ticked (s : PeriodicScheduler) (names : list string)
    (segs : list (list Event)) :
  Forall2 (ShardSegment s) names segs ->
  exists ns,
    sublist ns names /\
    acquired (concat segs) = map (fun n => "achgateway/rdfi/" +:+ n) ns /\
    map Some (ticked (concat segs)) = map (sharding s) ns.
Proof.
  induction 1 as [|n seg names segs Hseg _ (ns & Hsub & Ha & Ht)]; simpl.
  - exists []. repeat split. constructor.
  - unfold acquired, ticked in *. rewrite !omap_app, map_app, Ha, Ht.
    destruct Hseg as [Hs | shard err Hs | shard eff Hs | shard eff err res Hs]; simpl.
    + exists ns. split; [now apply sublist_cons | auto].
    + exists ns. split; [now apply sublist_cons | auto].
    + exists (n :: ns). split; [now apply sublist_skip|]. simpl. rewrite Hs. auto.
    + exists (n :: ns). split; [now apply sublist_skip|]. simpl. rewrite Hs. auto.
Qed.

(** X8.  A configured shard name that is not in the shard table is
    logged and skipped: the names logged as missing are exactly the
    configured names without a shard, in configuration order, and no
    lock is ever attempted under the key of such a name. *)
Theorem tickAll_skips_missing_shards (s : PeriodicScheduler) :
  missingShards (fst (tickAll s))
  = List.filter (fun n => negb (found s n)) (ShardNames (odfi s)) /\
  (forall n, sharding s n = None ->
     ~ In ("achgateway/rdfi/" +:+ n) (lockKeys (fst (tickAll s)))).
Proof.
  unfold tickAll. simpl.
  destruct (tickLoop_segments s (ShardNames (odfi s)) []) as (segs & -> & Hsegs).
  simpl. split; [now apply segments_missing|].
  intros n Hn Hin. rewrite (segments_lockKeys s _ _ Hsegs) in Hin.
  apply in_map_iff in Hin as (m & Hk & Hm). apply leaderKey_inj in Hk. subst m.
  apply filter_In in Hm as [_ Hf]. unfold found in Hf. rewrite Hn in Hf. discriminate.
Qed.

Lemma tickAll_skips_missing_shards_witness :
  ~ In "achgateway/rdfi/ghost" (lockKeys (fst (tickAll (sampleScheduler true false)))).
Proof.
  apply (proj2 (tickAll_skips_missing_shards (sampleScheduler true false)) "ghost").
  reflexivity.
Defined.

(** X9.  [tick] runs exactly once for every lock that was acquired, in
    the same order, on the shard found under the name the key was built
    from, and it does not run otherwise: the locks acquired are the keys
    of a subsequence of the configured names, and the shards ticked are
    the shards of those names. *)
Theorem tickAll_ticks_what_it_locked (s : PeriodicScheduler) :
  exists ns,
    sublist ns (ShardNames (odfi s)) /\
    acquired (fst (tickAll s)) = map (fun n => "achgateway/rdfi/" +:+ n) ns /\
    map Some (ticked (fst (tickAll s))) = map (sharding s) ns.
Proof.
  unfold tickAll. simpl.
  destruct (tickLoop_segments s (ShardNames (odfi s)) []) as (segs & -> & Hsegs).
  simpl. now apply segments_ticked.
Qed.

(** *** The dispatch loop *)

Lemma tickAllFrom_lockKeys (s : PeriodicScheduler) (h : list Event) :
  lockKeys (fst (tickAllFrom s h))
  = lockKeys h ++ map (fun n => "achgateway/rdfi/" +:+ n)
                      (List.filter (found s) (ShardNames (odfi s))).
Proof.
  unfold tickAllFrom. simpl.
  destruct (tickLoop_segments s (ShardNames (odfi s)) h) as (segs & -> & Hsegs).
  unfold lockKeys at 1. rewrite omap_app. fold (lockKeys h). fold (lockKeys (concat segs)).
  now rewrite (segments_lockKeys s _ _ Hsegs).
Qed.

Lemma Start_run (s : PeriodicScheduler) (wakes : list Wake)
    (h : list Event) (rs : list (nat * option error)) :
  let keys := map (fun n => "achgateway/rdfi/" +:+ n)
                  (List.filter (found s) (ShardNames (odfi s))) in
  replies (Start s wakes h rs) = rs ++ map (fun w => (w, None)) (waiters (served wakes)) /\
  lockKeys (history (Start s wakes h rs))
  = lockKeys h ++ concat (repeat keys (length (served wakes))) /\
  (In ShutdownDone wakes -> returned (Start s wakes h rs) = Some None) /\
  (~ In ShutdownDone wakes -> returned (Start s wakes h rs) = None).
Proof.
  intros keys. revert h rs. induction wakes as [|w ws IH]; intros h rs.
  - simpl. rewrite !app_nil_r. repeat split; auto. intros [].
  - destruct w as [|waiter|].
    + change (Start s (TickerFired :: ws) h rs)
        with (Start s ws (fst (tickAllFrom s h)) rs).
      destruct (IH (fst (tickAllFrom s h)) rs) as (Hr & Hk & Hs & Hn).
      rewrite Hr, Hk, tickAllFrom_lockKeys. fold keys. simpl.
      rewrite <- app_assoc. repeat split.
      * intros [H|H]; [discriminate | auto].
      * intros H. apply Hn. intros H'. apply H. now right.
    + change (Start s (InboundTrigger waiter :: ws) h rs)
        with (Start s ws (fst (tickAllFrom s h)) (rs ++ [(waiter, None)])).
      destruct (IH (fst (tickAllFrom s h)) (rs ++ [(waiter, None)])) as (Hr & Hk & Hs & Hn).
      rewrite Hr, Hk, tickAllFrom_lockKeys. fold keys. simpl.
      rewrite <- !app_assoc. repeat split.
      * intros [H|H]; [discriminate | auto].
      * intros H. apply Hn. intros H'. apply H. now right.
    + simpl. rewrite !app_nil_r. repeat split; auto.
      intros H. exfalso. apply H. now left.
Qed.

(** X10.  [Start] returns, with nil, exactly when its select takes the
    shutdown case; the cases after that one are never served.  Every
    ticker or manual-trigger case served before it runs one full pass
    over the shards (one lock attempt for every configured shard that is
    in the table, in order), and every manual trigger gets exactly one
    reply, which is nil whatever happened to the shards. *)
Theorem Start_serves_until_shutdown (s : PeriodicScheduler) (wakes : list Wake) :
  let run := Start s wakes [] [] in
  let keys := map (fun n => "achgateway/rdfi/" +:+ n)
                  (List.filter (found s) (ShardNames (odfi s))) in
  (returned run = Some None <-> In ShutdownDone wakes) /\
  (returned run = None <-> ~ In ShutdownDone wakes) /\
  replies run = map (fun w => (w, None)) (waiters (served wakes)) /\
  lockKeys (history run) = concat (repeat keys (length (served wakes))).
Proof.
  intros run keys.
  destruct (Start_run s wakes [] []) as (Hr & Hk & Hs & Hn). fold run in Hr, Hk, Hs, Hn.
  assert (Hdec : In ShutdownDone wakes \/ ~ In ShutdownDone wakes).
  { clear. induction wakes as [|w ws [IH|IH]]; [right; intros []| left; now right |].
    destruct w; [right | right | left; now left]; intros [H|H]; try discriminate; auto. }
  split; [|split; [|split; [exact Hr | exact Hk]]].
  - split; [|exact Hs]. intros H. destruct Hdec as [Hd|Hd]; [exact Hd|].
    rewrite (Hn Hd) in H. discriminate.
  - split; [|exact Hn]. intros H Hd. rewrite (Hs Hd) in H. discriminate.
Qed.

(** Two rounds, the second one triggered by hand, then the shutdown;
    the trigger that comes after the shutdown gets no reply. *)
Lemma Start_serves_until_shutdown_witness :
  let run := Start (sampleScheduler true false)
               [TickerFired; InboundTrigger 7; ShutdownDone; InboundTrigger 8] [] [] in
  returned run = Some None /\ replies run = [(7%nat, None)].
Proof.
  pose proof (Start_serves_until_shutdown (sampleScheduler true false)
                [TickerFired; InboundTrigger 7; ShutdownDone; InboundTrigger 8])
    as (Hret & _ & Hrep & _).
  split; [apply Hret; do 2 right; now left | exact Hrep].
Defined.

(** *** The constructor *)

(** X11.  [NewPeriodicScheduler] fails with "missing Inbound ODFI
    config" when the ODFI configuration is absent, before it creates
    anything; a failure of [NewDownloader] is returned as it is and the
    alerters are not created; a failure of [NewAlerters] is returned
    under "ERROR creating alerters: ".  When both are created and the
    configured interval is not positive, making the ticker panics.  A
    scheduler that is returned serves the configured ODFI section and
    shard table, downloads with the downloader made for the configured
    storage, ticks at the configured interval, which is positive, and
    has a trigger channel of capacity one. *)
Theorem NewPeriodicScheduler_result (k : Constructors) (cfg : Config) :
  (Inbound_ODFI cfg = None ->
     NewPeriodicScheduler k cfg
     = ([], rdfi.Val (inr "missing Inbound ODFI config"))) /\
  (forall o err,
     Inbound_ODFI cfg = Some o -> NewDownloader k (Storage o) = inr err ->
     NewPeriodicScheduler k cfg
     = ([CallNewDownloader (Storage o)], rdfi.Val (inr err))) /\
  (forall o dl err,
     Inbound_ODFI cfg = Some o -> NewDownloader k (Storage o) = inl dl ->
     NewAlerters k = inr err ->
     snd (NewPeriodicScheduler k cfg)
     = rdfi.Val (inr ("ERROR creating alerters: " +:+ err))) /\
  (forall o dl al,
     Inbound_ODFI cfg = Some o -> NewDownloader k (Storage o) = inl dl ->
     NewAlerters k = inl al -> Interval cfg <= 0 ->
     NewPeriodicScheduler k cfg
     = ([CallNewDownloader (Storage o); CallNewAlerters],
        rdfi.Panicked "non-positive interval for NewTicker")) /\
  (forall b,
     snd (NewPeriodicScheduler k cfg) = rdfi.Val (inl b) ->
     Inbound_ODFI cfg = Some (b_odfi b) /\
     b_sharding b = Sharding cfg /\
     NewDownloader k (Storage (b_odfi b)) = inl (b_downloader b) /\
     NewAlerters k = inl (b_alerters b) /\
     inboundTriggerCap b = 1 /\
     tickerInterval b = Interval cfg /\ 0 < Interval cfg /\
     fst (NewPeriodicScheduler k cfg)
     = [CallNewDownloader (Storage (b_odfi b)); CallNewAlerters]).
Proof.
  unfold NewPeriodicScheduler, NewTicker. split; [|split; [|split; [|split]]].
  - intros ->. reflexivity.
  - intros o err -> ->. reflexivity.
  - intros o dl err -> -> ->. reflexivity.
  - intros o dl al -> -> -> Hi. apply Z.leb_le in Hi. rewrite Hi. reflexivity.
  - intros b. destruct (Inbound_ODFI cfg) as [o|]; [|discriminate].
    destruct (NewDownloader k (Storage o)) as [dl|e] eqn:Hd; [|discriminate].
    destruct (NewAlerters k) as [al|e] eqn:Ha; [|discriminate].
    destruct (Interval cfg <=? 0) eqn:Hi; [discriminate|].
    apply Z.leb_gt in Hi.
    simpl. intros H. inversion H; subst. simpl. rewrite Hd. auto 10.
Qed.

Lemma NewPeriodicScheduler_result_witness :
  snd (NewPeriodicScheduler (sampleConstructors true) (sampleConfig 60000000000))
  = rdfi.Val (inr "ERROR creating alerters: unknown alerter") /\
  snd (NewPeriodicScheduler (sampleConstructors false) (sampleConfig 0))
  = rdfi.Panicked "non-positive interval for NewTicker".
Proof.
  split.
  - apply (proj1 (proj2 (proj2 (NewPeriodicScheduler_result
                                  (sampleConstructors true) (sampleConfig 60000000000))))
             (odfi (sampleScheduler true false)) (fun _ => inl bundle) "unknown alerter");
      reflexivity.
  - rewrite (proj1 (proj2 (proj2 (proj2 (NewPeriodicScheduler_result
                                  (sampleConstructors false) (sampleConfig 0)))))
               (odfi (sampleScheduler true false)) (fun _ => inl bundle)
               (fun _ _ => None) eq_refl eq_refl eq_refl ltac:(simpl; lia)).
    reflexivity.
Defined.

End SchedulerMore.

(** ** More on the submission endpoint *)

Module WebMore.
Import web webCancel Spec WebFacts.

Lemma decoded_cases (c : FilesController) (bs : bytes) :
  match ReaderRead c bs with
  | inl file => Some file
  | inr _ => match FileFromJSON c bs with
             | (Some f, None) => Some f
             | _ => None
             end
  end = None \/
  exists file,
    decodes c bs file /\
    match ReaderRead c bs with
    | inl file => Some file
    | inr _ => match FileFromJSON c bs with
               | (Some f, None) => Some f
               | _ => None
               end
    end = Some file.
Proof.
  unfold decodes. destruct (ReaderRead c bs) as [file|err].
  - right. exists file. auto.
  - destruct (FileFromJSON c bs) as [[f|] [e|]]; auto.
    right. exists f. split; [right; eauto | reflexivity].
Qed.

(** X12.  What a status of [CreateFileHandler] tells the client.  The
    status is 200, 400 or 500, and at most one message is handed to the
    publisher.  With 400 nothing was handed over.  With 200 the body was
    read and decoded (as wire format, else as JSON), and exactly one
    message was accepted by the publisher, whose body is the protected
    event of the decoded file under the route's fileID and shardKey.
    With 500 the body was read and decoded, and either protecting the
    event failed and nothing was sent, or the one message sent was
    refused by the publisher. *)
Theorem CreateFileHandler_status (c : FilesController) (r : Request) :
  let shardKey := var (Vars r) "shardKey" in
  let fileID := var (Vars r) "fileID" in
  let msgs := fst (CreateFileHandler c r) in
  let status := snd (CreateFileHandler c r) in
  (status = 200 \/ status = 400 \/ status = 500) /\
  (length msgs <= 1)%nat /\
  (status = 400 -> msgs = []) /\
  (status = 200 ->
     exists bs file msg,
       readBody c r = inl bs /\ decodes c bs file /\
       msgs = [msg] /\ publisher_Send c msg = None /\
       Protect c {| FileID := fileID; ShardKey := shardKey; File := file |}
       = inl (Body msg)) /\
  (status = 500 ->
     exists bs file,
       readBody c r = inl bs /\ decodes c bs file /\
       ((exists err,
           Protect c {| FileID := fileID; ShardKey := shardKey; File := file |} = inr err /\
           msgs = []) \/
        (exists msg err, msgs = [msg] /\ publisher_Send c msg = Some err))).
Proof.
  intros shardKey fileID msgs status. unfold msgs, status, CreateFileHandler.
  fold shardKey fileID.
  destruct (String.eqb shardKey "" || String.eqb fileID "").
  { simpl. repeat split; auto with arith; discriminate. }
  destruct (readBody c r) as [bs|e].
  2:{ simpl. repeat split; auto with arith; discriminate. }
  destruct (decoded_cases c bs) as [-> | (file & Hd & ->)].
  { simpl. repeat split; auto with arith; discriminate. }
  unfold publishFile.
  destruct (Protect c _) as [body|e] eqn:Hp; simpl.
  - destruct (publisher_Send c _) as [e|] eqn:Hs; simpl.
    + repeat split; auto with arith; try discriminate.
      intros _. exists bs, file. repeat split; auto. right. eauto.
    + repeat split; auto with arith; try discriminate.
      intros _. exists bs, file. eexists. repeat split; eauto.
  - repeat split; auto with arith; try discriminate.
    intros _. exists bs, file. repeat split; auto. left. eauto.
Qed.

Lemma CreateFileHandler_status_witness :
  fst (CreateFileHandler (sampleController (fun _ => None)) (sampleRequest [])) = [].
Proof.
  apply (proj1 (proj2 (proj2 (CreateFileHandler_status
                                (sampleController (fun _ => None)) (sampleRequest []))))).
  reflexivity.
Defined.

(** X13.  [CancelFileHandler] answers 400, and publishes nothing, exactly
    when the shardKey or the fileID of the route is empty.  Otherwise it
    publishes at most one message: when protecting the cancel event
    fails it answers 500 and sends nothing; else it sends one message
    whose metadata is exactly the route's fileID and shardKey, and
    answers 500 when the publisher refuses it and 200 when it accepts.
    The request body plays no part. *)
Theorem CancelFileHandler_result (c : FilesController)
    (protect : CancelACHFile -> bytes + error) (r : Request) :
  let shardKey := var (Vars r) "shardKey" in
  let fileID := var (Vars r) "fileID" in
  let ev := {| cancel_FileID := fileID; cancel_ShardKey := shardKey |} in
  (snd (CancelFileHandler c protect r) = 400 <-> shardKey = "" \/ fileID = "") /\
  (shardKey = "" \/ fileID = "" -> fst (CancelFileHandler c protect r) = []) /\
  (shardKey <> "" -> fileID <> "" ->
     (forall err, protect ev = inr err ->
        CancelFileHandler c protect r = ([], 500)) /\
     (forall body, protect ev = inl body ->
        exists msg,
          Body msg = body /\
          Metadata msg !! "fileID" = Some fileID /\
          Metadata msg !! "shardKey" = Some shardKey /\
          dom (Metadata msg) = {["fileID"; "shardKey"]} /\
          CancelFileHandler c protect r
          = ([msg], match publisher_Send c msg with Some _ => 500 | None => 200 end))) /\
  (forall r', Vars r' = Vars r ->
     CancelFileHandler c protect r' = CancelFileHandler c protect r).
Proof.
  intros shardKey fileID ev. unfold CancelFileHandler. fold shardKey fileID.
  assert (Hempty : String.eqb shardKey "" || String.eqb fileID "" = true <->
                   shardKey = "" \/ fileID = "").
  { rewrite orb_true_iff, !String.eqb_eq. reflexivity. }
  split; [|split; [|split]].
  - destruct (String.eqb shardKey "" || String.eqb fileID "") eqn:E.
    + simpl. split; [intros _; now apply Hempty | reflexivity].
    + unfold cancelFile. fold ev. split.
      * destruct (protect ev); simpl; [|discriminate].
        destruct (publisher_Send c _); discriminate.
      * intros H. apply Hempty in H. discriminate.
  - intros H. apply Hempty in H. rewrite H. reflexivity.
  - intros Hs Hf.
    assert (E : String.eqb shardKey "" || String.eqb fileID "" = false).
    { apply String.eqb_neq in Hs, Hf. now rewrite Hs, Hf. }
    rewrite E. unfold cancelFile. fold ev. split.
    + intros err ->. reflexivity.
    + intros body ->.
      exists {| Body := body;
                Metadata := <["shardKey" := shardKey]>
                              (<["fileID" := fileID]> (∅ : gmap string string)) |}.
      split; [reflexivity|].
      split; [|split; [|split]]; simpl.
      * rewrite lookup_insert_ne by discriminate. apply lookup_insert_eq.
      * apply lookup_insert_eq.
      * rewrite !dom_insert_L, dom_empty_L. set_solver.
      * destruct (publisher_Send c _); reflexivity.
  - intros r' Hv. unfold shardKey, fileID. rewrite Hv. reflexivity.
Qed.

Lemma CancelFileHandler_result_witness :
  CancelFileHandler (sampleController (fun _ => None)) (fun _ => inr "no key")
    (sampleRequest []) = ([], 500).
Proof.
  apply (proj1 (proj1 (proj2 (proj2 (CancelFileHandler_result
                                       (sampleController (fun _ => None))
                                       (fun _ => inr "no key") (sampleRequest []))))
                  ltac:(vm_compute; discriminate) ltac:(vm_compute; discriminate))
           "no key").
  reflexivity.
Defined.

(** X14.  Submitting a file and cancelling it under the same route put
    the same metadata on their messages: a consumer can match a
    cancellation with its file by fileID and shardKey. *)
Theorem create_cancel_same_metadata (c : FilesController)
    (protect : CancelACHFile -> bytes + error) (r : Request)
    (created cancelled : Message) :
  In created (fst (CreateFileHandler c r)) ->
  In cancelled (fst (CancelFileHandler c protect r)) ->
  Metadata created = Metadata cancelled.
Proof.
  unfold CreateFileHandler, CancelFileHandler.
  destruct (String.eqb _ "" || String.eqb _ ""); [intros []|].
  destruct (readBody c r) as [bs|e]; [|intros []].
  destruct (decoded_cases c bs) as [-> | (file & _ & ->)]; [intros []|].
  unfold publishFile, cancelFile.
  destruct (Protect c _) as [b1|e1]; [|intros []].
  destruct (protect _) as [b2|e2].
  - destruct (publisher_Send c _), (publisher_Send c _); simpl;
      intros [<- | []] [<- | []]; reflexivity.
  - destruct (publisher_Send c _); simpl; intros _ [].
Qed.

Lemma create_cancel_same_metadata_witness :
  let meta := <["shardKey" := "testing"]> (<["fileID" := "f1"]> (∅ : gmap string string)) in
  Metadata {| Body := []; Metadata := meta |}
  = Metadata {| Body := [Byte.x00]; Metadata := meta |}.
Proof.
  apply (create_cancel_same_metadata (sampleController (fun _ => None))
           (fun _ => inl [Byte.x00]) (sampleRequest [Byte.x31]));
    left; reflexivity.
Defined.

End WebMore.
